(** * LaserWeed model conversion: a shallow embedding of
      [src/models/convert_model.py] and [src/models/batch_convert.py].

    The converter is stateful Python: it reads and writes files, keeps the
    path of an interim ONNX file in [self.temp_onnx_path], and calls four
    external collaborators ([torch.load], [torch.save], ultralytics' [YOLO]
    and the [tensorflowjs_converter] command).  The embedding threads an
    explicit state (file system, tracked path, strategy log) through a small
    state-and-exception monad; the external collaborators are a record of
    functions the theorems quantify over. *)

From Stdlib Require Import ZArith QArith String Ascii.
From stdpp Require Import gmap strings list pretty.

Set Warnings "-register-all".

(** ** Strings and paths *)

Module Str.

(** [needle in hay] on Python strings. *)
Fixpoint contains (needle hay : string) : bool :=
  String.prefix needle hay
  || match hay with
     | EmptyString => false
     | String _ hay' => contains needle hay'
     end.

Definition lower_ascii (c : ascii) : ascii :=
  let n := nat_of_ascii c in
  if (65 <=? n)%nat && (n <=? 90)%nat then ascii_of_nat (n + 32) else c.

(** [str.lower()], on the ASCII range. *)
Fixpoint lower (s : string) : string :=
  match s with
  | EmptyString => EmptyString
  | String c s' => String (lower_ascii c) (lower s')
  end.

(** [str.rfind(c)]: index of the last occurrence, [None] for [-1]. *)
Fixpoint rfind (c : ascii) (s : string) : option nat :=
  match s with
  | EmptyString => None
  | String a s' =>
      match rfind c s' with
      | Some i => Some (S i)
      | None => if Ascii.eqb a c then Some 0%nat else None
      end
  end.

(** [s.split(sep)] for a one-character separator. *)
Fixpoint split (sep : ascii) (s : string) : list string :=
  match s with
  | EmptyString => [""]
  | String c s' =>
      if Ascii.eqb c sep then "" :: split sep s'
      else match split sep s' with
           | [] => [String c ""]
           | x :: xs => String c x :: xs
           end
  end.

Fixpoint join (sep : string) (l : list string) : string :=
  match l with
  | [] => ""
  | [x] => x
  | x :: l' => x +:+ sep +:+ join sep l'
  end.

End Str.

(** A [pathlib.Path], as its components. *)
Abbreviation path := (list string).

Module Path.


Definition name (p : path) : string := List.last p "".
Definition parent (p : path) : path := removelast p.
(** [p / child] *)
Definition div (p : path) (child : string) : path := p ++ [child].

(** The index at which the suffix of a file name starts: the last dot,
    when it is neither the first nor the last character. *)
Definition suffix_start (nm : string) : option nat :=
  match Str.rfind "."%char nm with
  | Some i =>
      if (0 <? i)%nat && (i <? String.length nm - 1)%nat then Some i else None
  | None => None
  end.

Definition suffix_of (nm : string) : string :=
  match suffix_start nm with
  | Some i => substring i (String.length nm - i) nm
  | None => ""
  end.

Definition stem_of (nm : string) : string :=
  match suffix_start nm with
  | Some i => substring 0 i nm
  | None => nm
  end.

Definition suffix (p : path) : string := suffix_of (name p).
Definition stem (p : path) : string := stem_of (name p).
Definition with_suffix (p : path) (sfx : string) : path :=
  div (parent p) (stem p +:+ sfx).

(** [str(p)]; the empty path is the current directory. *)
Definition str (p : path) : string :=
  match p with
  | [] => "."
  | _ => Str.join "/" p
  end.

(** A component [Path(s)] keeps: neither empty nor a single dot. *)
Definition kept (x : string) : bool :=
  negb (String.eqb x "") && negb (String.eqb x ".").

(** [Path(s)] for a string: the text between the slashes, without what
    [pathlib] drops.  The root of an absolute path is not kept; it has no
    bearing on the name. *)
Definition of_str (s : string) : path := List.filter kept (Str.split "/" s).

End Path.

Notation "p </> child" := (Path.div p child) (at level 40, left associativity).

(** ** Python values and JSON documents *)

(** Keys of a Python dict.  [KOther] is a hashable key that [json] cannot
    turn into a member name (a tuple, say).  Float keys are not modelled. *)
Inductive pykey : Type :=
| KNone
| KBool (b : bool)
| KInt (n : Z)
| KStr (s : string)
| KOther.

(** What [torch.load] may hand back, as far as the converter looks into it.
    [PyModule sd] is an object with a [state_dict()] method returning [sd];
    [PyOpaque] is any other object that is no container (a plain object,
    bytes): [in] raises on it and [json] cannot serialise it.  Sets and
    tuples are not modelled.  A dict keeps its insertion order. *)
Inductive pyval : Type :=
| PyNone
| PyBool (b : bool)
| PyInt (n : Z)
| PyFloat (q : Q)
| PyStr (s : string)
| PyList (xs : list pyval)
| PyDict (kvs : list (pykey * pyval))
| PyModule (sd : pyval)
| PyOpaque.

(** A parsed JSON document, as [json.load] returns it. *)
Inductive json : Type :=
| JNull
| JBool (b : bool)
| JInt (n : Z)
| JFloat (q : Q)
| JStr (s : string)
| JArr (xs : list json)
| JObj (kvs : list (string * json)).

(** What a file holds: a well-formed JSON document, or bytes [json.load]
    rejects (a binary export, or the prefix a failed [json.dump] left). *)
Inductive content : Type :=
| Json (j : json)
| Raw.

Inductive exn : Type :=
| ValueError (msg : string)
| NotImplementedError (msg : string)
| TypeError
| KeyError
| IndexError
| AttributeError
| ExternalError (msg : string).

Inductive result (A : Type) : Type :=
| Return (a : A)
| Raise (e : exn).
Arguments Return {A} a.
Arguments Raise {A} e.

Module Py.

Definition key_eqb (k : pykey) (s : string) : bool :=
  match k with
  | KStr s' => String.eqb s' s
  | _ => false
  end.

Definition is_str (s : string) (v : pyval) : bool :=
  match v with
  | PyStr s' => String.eqb s' s
  | _ => false
  end.

Fixpoint dict_lookup (s : string) (kvs : list (pykey * pyval)) : option pyval :=
  match kvs with
  | [] => None
  | (k, v) :: kvs' => if key_eqb k s then Some v else dict_lookup s kvs'
  end.

(** [s in c] for a string [s]. *)
Definition contains (s : string) (c : pyval) : result bool :=
  match c with
  | PyDict kvs => Return (bool_decide (is_Some (dict_lookup s kvs)))
  | PyList xs => Return (existsb (is_str s) xs)
  | PyStr t => Return (Str.contains s t)
  | _ => Raise TypeError
  end.

(** [c[s]] for a string [s]. *)
Definition getitem (s : string) (c : pyval) : result pyval :=
  match c with
  | PyDict kvs =>
      match dict_lookup s kvs with
      | Some v => Return v
      | None => Raise KeyError
      end
  | _ => Raise TypeError
  end.

(** [c.get(s, d)] *)
Definition get (s : string) (d : pyval) (c : pyval) : result pyval :=
  match c with
  | PyDict kvs => Return (default d (dict_lookup s kvs))
  | _ => Raise AttributeError
  end.

(** [len(v)] *)
Definition len (v : pyval) : result nat :=
  match v with
  | PyStr s => Return (String.length s)
  | PyList xs => Return (length xs)
  | PyDict kvs => Return (length kvs)
  | _ => Raise TypeError
  end.

(** [list(d.values()) if isinstance(d, dict) else d] *)
Definition values_if_dict (v : pyval) : pyval :=
  match v with
  | PyDict kvs => PyList (kvs.*2)
  | _ => v
  end.

Definition hasattr_state_dict (v : pyval) : bool :=
  match v with
  | PyModule _ => true
  | _ => false
  end.

Definition state_dict (v : pyval) : pyval :=
  match v with
  | PyModule sd => sd
  | _ => PyNone
  end.

End Py.

Module JSON.

(** Member names [json.dump] gives to dict keys. *)
Definition key_name (k : pykey) : option string :=
  match k with
  | KStr s => Some s
  | KInt n => Some (pretty n)
  | KBool true => Some "true"
  | KBool false => Some "false"
  | KNone => Some "null"
  | KOther => None
  end.

(** The document [json.dump] produces, [None] when it raises. *)
Fixpoint encode (v : pyval) : option json :=
  match v with
  | PyNone => Some JNull
  | PyBool b => Some (JBool b)
  | PyInt n => Some (JInt n)
  | PyFloat q => Some (JFloat q)
  | PyStr s => Some (JStr s)
  | PyList xs =>
      JArr <$>
        (fix go (l : list pyval) : option (list json) :=
           match l with
           | [] => Some []
           | x :: l' =>
               match encode x, go l' with
               | Some j, Some js => Some (j :: js)
               | _, _ => None
               end
           end) xs
  | PyDict kvs =>
      JObj <$>
        (fix go (l : list (pykey * pyval)) : option (list (string * json)) :=
           match l with
           | [] => Some []
           | (k, x) :: l' =>
               match key_name k, encode x, go l' with
               | Some s, Some j, Some js => Some ((s, j) :: js)
               | _, _, _ => None
               end
           end) kvs
  | PyModule _ | PyOpaque => None
  end.

(** What [with open(p, 'w') as f: json.dump(v, f, indent=2)] leaves in the
    file: the document, or a truncated prefix when the encoder raises. *)
Definition dumped (v : pyval) : content :=
  match encode v with
  | Some j => Json j
  | None => Raw
  end.

(** Member lookup in a parsed object; on a repeated name the parser keeps
    the last value. *)
Fixpoint field (s : string) (kvs : list (string * json)) : option json :=
  match kvs with
  | [] => None
  | (k, v) :: kvs' =>
      match field s kvs' with
      | Some v' => Some v'
      | None => if String.eqb k s then Some v else None
      end
  end.

(** The document is an object with a member named [s]. *)
Definition has_field (s : string) (j : json) : bool :=
  match j with
  | JObj kvs => bool_decide (is_Some (field s kvs))
  | _ => false
  end.

Definition get_field (s : string) (j : json) : option json :=
  match j with
  | JObj kvs => field s kvs
  | _ => None
  end.

Definition is_jstr (s : string) (j : json) : bool :=
  match j with
  | JStr s' => String.eqb s' s
  | _ => false
  end.

(** [s in config] on the value [json.load] returned. *)
Definition contains (s : string) (j : json) : result bool :=
  match j with
  | JObj kvs => Return (bool_decide (is_Some (field s kvs)))
  | JArr xs => Return (existsb (is_jstr s) xs)
  | JStr t => Return (Str.contains s t)
  | _ => Raise TypeError
  end.

End JSON.

(** ** State, exceptions and the external collaborators *)

(** The lines the strategy loop prints, kept as a log. *)
Inductive event : Type :=
| EvTrying (i : nat) (name : string)
| EvSucceeded (i : nat)
| EvFailed (i : nat) (e : exn).

(** The mutable world of one [ModelConverter]: regular files by path
    (directories are implicit), [self.temp_onnx_path], and the log. *)
Record state : Type := State {
  fs : gmap path content;
  temp_onnx_path : option path;
  log : list event
}.

Definition M (A : Type) : Type := state → result A * state.

Definition ret {A} (a : A) : M A := λ s, (Return a, s).
Definition raise {A} (e : exn) : M A := λ s, (Raise e, s).
Definition lift {A} (r : result A) : M A := λ s, (r, s).
Definition bind {A B} (m : M A) (k : A → M B) : M B :=
  λ s, match m s with
       | (Return a, s') => k a s'
       | (Raise e, s') => (Raise e, s')
       end.

Definition rbind {A B} (r : result A) (k : A → result B) : result B :=
  match r with
  | Return a => k a
  | Raise e => Raise e
  end.

#[global] Instance M_ret : MRet M := @ret.
#[global] Instance M_bind : MBind M := λ A B k m, bind m k.
#[global] Instance result_ret : MRet result := @Return.
#[global] Instance result_bind : MBind result := λ A B k r, rbind r k.

(** [try: body except Exception as e: handler e] *)
Definition try_except {A} (body : M A) (handler : exn → M A) : M A :=
  λ s, match body s with
       | (Raise e, s') => handler e s'
       | (Return a, s') => (Return a, s')
       end.

(** [try: body finally: fin]; an exception of [fin] replaces the outcome. *)
Definition try_finally {A} (body : M A) (fin : M unit) : M A :=
  λ s, match body s with
       | (r, s') =>
           match fin s' with
           | (Return _, s'') => (r, s'')
           | (Raise e, s'') => (Raise e, s'')
           end
       end.

(** Runs [m] and hands its outcome over as a value. *)
Definition attempt {A} (m : M A) : M (result A) :=
  λ s, match m s with (r, s') => (Return r, s') end.

Definition emit (e : event) : M unit :=
  λ s, (Return (), State (fs s) (temp_onnx_path s) (log s ++ [e])).

Definition set_temp_onnx_path (p : path) : M unit :=
  λ s, (Return (), State (fs s) (Some p) (log s)).

Definition get_temp_onnx_path : M (option path) :=
  λ s, (Return (temp_onnx_path s), s).

Definition with_fs (f : gmap path content → gmap path content) : M unit :=
  λ s, (Return (), State (f (fs s)) (temp_onnx_path s) (log s)).

Module FS.

(** [p.exists()] for a path that names a file. *)
Definition exists_ (p : path) : M bool :=
  λ s, (Return (bool_decide (is_Some (fs s !! p))), s).

(** [open(p, 'w')] followed by a complete or failed write. *)
Definition write (p : path) (c : content) : M unit := with_fs (insert p c).

(** [p.unlink()] *)
Definition unlink (p : path) : M unit := with_fs (delete p).

Definition rename_fs (src dst : path) (m : gmap path content) : gmap path content :=
  match m !! src with
  | Some c => <[dst := c]> (delete src m)
  | None => m
  end.

(** [src.rename(dst)] of an existing source. *)
Definition rename (src dst : path) : M unit := with_fs (rename_fs src dst).

(** The paths a file lies below, itself included: [a], [a/b] and [a/b/c]
    for [a/b/c]. *)
Fixpoint prefixes (p : path) : list path :=
  match p with
  | [] => []
  | x :: p' => [x] :: (cons x <$> prefixes p')
  end.

(** [p.is_file()] *)
Definition is_file (m : gmap path content) (p : path) : bool :=
  bool_decide (is_Some (m !! p)).

(** [d.is_dir()]: directories are implicit, one is there when a file lies
    below it; the current directory always is. *)
Definition is_dir (m : gmap path content) (d : path) : bool :=
  bool_decide (d = [])
  || existsb (λ q, bool_decide (d `prefix_of` q) && negb (bool_decide (q = d)))
             (map_to_list m).*1.

(** [p.exists()] for any path. *)
Definition path_exists (m : gmap path content) (p : path) : bool :=
  is_file m p || is_dir m p.

(** Every file and directory of the file system. *)
Definition entries (m : gmap path content) : list path :=
  remove_dups ((map_to_list m).*1 ≫= prefixes).

(** [d.mkdir(parents=True, exist_ok=True)] raises: [d] is no directory
    yet, and it or one of the directories above it is a regular file. *)
Definition blocked (m : gmap path content) (d : path) : bool :=
  negb (is_dir m d) && existsb (is_file m) (prefixes d).

(** [open(p, 'r')] and [json.load]: the document, or the exception of
    a missing file or of malformed content. *)
Definition load_json (m : gmap path content) (p : path) : result json :=
  match m !! p with
  | Some (Json j) => Return j
  | Some Raw => Raise (ValueError "JSONDecodeError")
  | None => Raise (ExternalError "FileNotFoundError")
  end.

End FS.

(** How a call to an external writer ends: whether it left its output
    file behind, and whether it raised. *)
Record ext_outcome : Type := Outcome { wrote : bool; raised : bool }.

(** A loaded ultralytics model: its [names] attribute, when it has one, and
    what [export(format='onnx', imgsz=n)] does. *)
Record yolo_model : Type := YoloModel {
  yolo_names : option pyval;
  yolo_export : Z → ext_outcome
}.

(** What the converter command left in its output directory: the
    [model.json] it wrote, if it wrote one (a well-formed document or not),
    and the number of weight shards [group1-shard<i>of<n>.bin] beside it. *)
Record tfjs_outcome : Type := Tfjs {
  tfjs_model : option content;
  tfjs_shards : nat
}.

(** The collaborators outside the repository.  [torch_load weights_only p]
    is [torch.load(str(p), ...)] with that keyword ([None] when it is left
    to its default); [tensorflowjs_converter args] is the shell command
    [os.system] runs, which does not raise. *)
Record externals : Type := Externals {
  torch_load : option bool → path → result pyval;
  torch_save : pyval → path → ext_outcome;
  YOLO : path → result yolo_model;
  tensorflowjs_converter : list string → tfjs_outcome
}.

Definition shard_name (i n : nat) : string :=
  "group1-shard" +:+ pretty i +:+ "of" +:+ pretty n +:+ ".bin".

(** The files of the output directory [out] after the converter ran. *)
Definition write_tfjs (out : path) (o : tfjs_outcome)
    (m : gmap path content) : gmap path content :=
  let shards :=
    foldr (λ i acc, <[out </> shard_name i (tfjs_shards o) := Raw]> acc)
          m (seq 1 (tfjs_shards o)) in
  match tfjs_model o with
  | Some c => <[out </> "model.json" := c]> shards
  | None => shards
  end.

(** An external call that writes [target]. *)
Definition ext_write (o : ext_outcome) (target : path) (what : string) : M unit :=
  (if wrote o then FS.write target Raw else ret ()) ≫= λ _,
  if raised o then raise (ExternalError what) else ret ().

(** ** [convert_model.py]: class [ModelConverter] *)

(** The [info] dict of [_extract_yolov7_info]; the last two fields are the
    keys [_strategy_fallback_conversion] may add to its copy. *)
Record model_info : Type := ModelInfo {
  classes : pyval;
  input_size : list Z;
  model_type : string;
  variant : string;
  training_epoch : option pyval;
  best_fitness : option pyval
}.

Definition set_classes (c : pyval) (mi : model_info) : model_info :=
  ModelInfo c (input_size mi) (model_type mi) (variant mi)
            (training_epoch mi) (best_fitness mi).
Definition set_training_epoch (v : pyval) (mi : model_info) : model_info :=
  ModelInfo (classes mi) (input_size mi) (model_type mi) (variant mi)
            (Some v) (best_fitness mi).
Definition set_best_fitness (v : pyval) (mi : model_info) : model_info :=
  ModelInfo (classes mi) (input_size mi) (model_type mi) (variant mi)
            (training_epoch mi) (Some v).

Definition crop_weed : pyval := PyList [PyStr "crop"; PyStr "weed"].

Definition default_info : model_info :=
  ModelInfo crop_weed [640; 640]%Z "yolov7" "base" None None.

(** [with open(p, 'w') as f: json.dump(v, f, indent=2)] *)
Definition json_dump (p : path) (v : pyval) : M unit :=
  FS.write p (JSON.dumped v);;
  if JSON.encode v is Some _ then ret () else raise TypeError.

Definition py_ints (l : list Z) : pyval := PyList (PyInt <$> l).

Definition performance_of (v : string) : string :=
  if String.eqb v "tiny" then "fast_inference"
  else if String.eqb v "x" then "high_accuracy"
  else if String.eqb v "e6" then "highest_accuracy"
  else "balanced".

Definition yolov7_config (mi : model_info) : pyval :=
  PyDict
    [ (KStr "classes", classes mi);
      (KStr "modelType", PyStr ("yolov7-" +:+ variant mi));
      (KStr "inputSize", py_ints (input_size mi));
      (KStr "threshold", PyFloat 0.35);
      (KStr "iouThreshold", PyFloat 0.65);
      (KStr "description",
        PyStr ("YOLOv7 " +:+ variant mi +:+ " model for crop/weed detection"));
      (KStr "optimizedFor", PyStr "agricultural_detection");
      (KStr "performance", PyStr (performance_of (variant mi))) ].

Definition yolov5_config (class_names : pyval) : pyval :=
  PyDict
    [ (KStr "classes", Py.values_if_dict class_names);
      (KStr "modelType", PyStr "yolov5");
      (KStr "inputSize", py_ints [640; 640]%Z);
      (KStr "anchors",
        PyList [ py_ints [10; 13; 16; 30; 33; 23]%Z;
                 py_ints [30; 61; 62; 45; 59; 119]%Z;
                 py_ints [116; 90; 156; 198; 373; 326]%Z ]);
      (KStr "strides", py_ints [8; 16; 32]%Z);
      (KStr "threshold", PyFloat 0.5);
      (KStr "iouThreshold", PyFloat 0.45) ].

Definition minimal_config : pyval :=
  PyDict
    [ (KStr "classes", PyList [PyStr "weed"; PyStr "crop"]);
      (KStr "modelType", PyStr "yolo");
      (KStr "inputSize", py_ints [640; 640]%Z);
      (KStr "threshold", PyFloat 0.5);
      (KStr "iouThreshold", PyFloat 0.45) ].

Definition placeholder_model : pyval :=
  PyDict
    [ (KStr "format", PyStr "graph-model");
      (KStr "generatedBy", PyStr "LaserWeed Converter (Fallback)");
      (KStr "convertedBy", PyStr "Manual Configuration");
      (KStr "modelTopology",
        PyDict [(KStr "note",
                 PyStr "Model conversion failed - using simple detection")]);
      (KStr "weightsManifest", PyList []) ].

(** [for key in keys: if key in checkpoint: ... = checkpoint[key]; break] *)
Fixpoint first_present (keys : list string) (checkpoint : pyval)
  : result (option (string * pyval)) :=
  match keys with
  | [] => Return None
  | key :: keys' =>
      b ← Py.contains key checkpoint;
      if b : bool then v ← Py.getitem key checkpoint; Return (Some (key, v))
      else first_present keys' checkpoint
  end.

(** [l.insert(-1, x)] *)
Definition insert_before_last {A} (x : A) (l : list A) : list A :=
  match l with
  | [] => [x]
  | _ => removelast l ++ [x; List.last l x]
  end.

Definition strategy : Type := pyval → model_info → M bool.

Module ModelConverter.
Section Converter.

Variable ext : externals.
Variables input_path output_path : path.
Variable quantize : bool.

(** [self.output_path.mkdir(parents=True, exist_ok=True)]: it raises when
    a regular file is in the way; otherwise there is nothing to record,
    directories being implicit in [fs]. *)
Definition mkdir_output : M unit :=
  λ s, if FS.blocked (fs s) output_path
       then (Raise (ExternalError "FileExistsError"), s)
       else (Return (), s).

Definition _extract_yolov7_info (checkpoint : pyval) : result model_info :=
  has_names ← Py.contains "names" checkpoint;
  cls ← (if has_names : bool
         then names ← Py.getitem "names" checkpoint;
              Return (Py.values_if_dict names)
         else Return crop_weed);
  let info := set_classes cls default_info in
  let filename := Str.lower (Path.name input_path) in
  Return
    (if Str.contains "tiny" filename then
       ModelInfo (classes info) [640; 640]%Z (model_type info) "tiny" None None
     else if Str.contains "x" filename then
       ModelInfo (classes info) [640; 640]%Z (model_type info) "x" None None
     else if Str.contains "e6" filename then
       ModelInfo (classes info)
                 (if Str.contains "1280" filename
                  then [1280; 1280]%Z else [640; 640]%Z)
                 (model_type info) "e6" None None
     else info).

Definition _generate_yolov7_classes_json (mi : model_info) : M unit :=
  try_except
    (let config := yolov7_config mi in
     json_dump (output_path </> "classes.json") config;;
     _ ← lift (Py.len (classes mi));
     ret ())
    (λ _, ret ()).

Definition _generate_classes_json (model : yolo_model) : M unit :=
  try_except
    (let class_names := default (PyList []) (yolo_names model) in
     let config := yolov5_config class_names in
     json_dump (output_path </> "classes.json") config;;
     _ ← lift (Py.len (Py.values_if_dict class_names));
     ret ())
    (λ _, json_dump (output_path </> "classes.json") minimal_config).

Definition conversion_args (onnx_path : string) : list string :=
  let args := [ "--input_format=onnx";
                "--output_format=tfjs_graph_model";
                "--output_path=" +:+ Path.str output_path;
                onnx_path ] in
  if quantize then insert_before_last "--quantize_float16" args else args.

Definition _convert_onnx (onnx_path : option string) : M bool :=
  let onnx_path := default (Path.str input_path) onnx_path in
  try_except
    (with_fs (write_tfjs output_path
                (tensorflowjs_converter ext (conversion_args onnx_path)));;
     FS.exists_ (output_path </> "model.json"))
    (λ _, ret false).

Definition _convert_pytorch : M bool :=
  model ← lift (YOLO ext input_path);
  let temp := output_path </> "temp_model.onnx" in
  set_temp_onnx_path temp;;
  let exported_onnx := Path.with_suffix input_path ".onnx" in
  ext_write (yolo_export model 640) exported_onnx "export";;
  ex ← FS.exists_ exported_onnx;
  (if ex : bool then FS.rename exported_onnx temp else ret ());;
  success ← _convert_onnx (Some (Path.str temp));
  (if success : bool then _generate_classes_json model else ret ());;
  ret success.

Definition _convert_yolov7_alternative : M bool :=
  try_except
    (_ ← lift (torch_load ext None input_path);
     _generate_yolov7_classes_json default_info;;
     ret false)
    (λ _, ret false).

Definition _strategy_ultralytics_export : strategy := λ checkpoint mi,
  let temp_pt_path := output_path </> "temp_model.pt" in
  found ← lift (first_present ["model"; "ema"; "state_dict"] checkpoint);
  let model_data := from_option snd PyNone found in
  let used_key := fst <$> found in
  (if model_data is PyNone
   then raise (ValueError "No model data found in standard keys")
   else ret ());;
  let weights :=
    if decide (used_key = Some "state_dict") then model_data
    else if Py.hasattr_state_dict model_data then Py.state_dict model_data
    else model_data in
  epoch ← lift (Py.get "epoch" (PyInt 0) checkpoint);
  names ← lift (Py.get "names" (classes mi) checkpoint);
  let model_checkpoint :=
    PyDict [(KStr "model", weights); (KStr "epoch", epoch);
            (KStr "names", names)] in
  ext_write (torch_save ext model_checkpoint temp_pt_path) temp_pt_path
            "torch.save";;
  try_finally
    (model ← lift (YOLO ext temp_pt_path);
     let temp := output_path </> "temp_model.onnx" in
     set_temp_onnx_path temp;;
     imgsz ← lift (from_option Return (Raise IndexError) (head (input_size mi)));
     let exported_onnx := Path.with_suffix temp_pt_path ".onnx" in
     ext_write (yolo_export model imgsz) exported_onnx "export";;
     ex ← FS.exists_ exported_onnx;
     if ex : bool then
       FS.rename exported_onnx temp;;
       success ← _convert_onnx (Some (Path.str temp));
       (if success : bool then _generate_yolov7_classes_json mi else ret ());;
       ret success
     else ret false)
    (ex ← FS.exists_ temp_pt_path;
     if ex : bool then FS.unlink temp_pt_path else ret ()).

Definition _strategy_direct_onnx_export : strategy := λ _ _,
  try_except
    (raise (NotImplementedError "Direct ONNX export not implemented yet"))
    (λ e, raise e).

Definition _strategy_manual_reconstruction : strategy := λ _ _,
  try_except
    (raise (NotImplementedError "Manual reconstruction not implemented yet"))
    (λ e, raise e).

Definition _strategy_fallback_conversion : strategy := λ checkpoint mi,
  let enhanced := mi in
  has_epoch ← lift (Py.contains "epoch" checkpoint);
  enhanced ← (if has_epoch : bool
              then v ← lift (Py.getitem "epoch" checkpoint);
                   ret (set_training_epoch v enhanced)
              else ret enhanced);
  has_fit ← lift (Py.contains "best_fitness" checkpoint);
  enhanced ← (if has_fit : bool
              then v ← lift (Py.getitem "best_fitness" checkpoint);
                   ret (set_best_fitness v enhanced)
              else ret enhanced);
  found ← lift (first_present ["names"; "class_names"; "classes"] checkpoint);
  let enhanced :=
    match found with
    | Some (_, v) => set_classes v enhanced
    | None => enhanced
    end in
  _generate_yolov7_classes_json enhanced;;
  json_dump (output_path </> "model.json") placeholder_model;;
  ret true.

Definition conversion_strategies : list (string * strategy) :=
  [ ("_strategy_ultralytics_export", _strategy_ultralytics_export);
    ("_strategy_direct_onnx_export", _strategy_direct_onnx_export);
    ("_strategy_manual_reconstruction", _strategy_manual_reconstruction);
    ("_strategy_fallback_conversion", _strategy_fallback_conversion) ].

(** The [for i, strategy in enumerate(..., 1)] loop; [true] when a strategy
    succeeded and the method returned from inside the loop. *)
Fixpoint try_strategies (i : nat) (strategies : list (string * strategy))
    (checkpoint : pyval) (mi : model_info) : M bool :=
  match strategies with
  | [] => ret false
  | (name, strat) :: rest =>
      emit (EvTrying i name);;
      r ← attempt (strat checkpoint mi);
      match r with
      | Return true => emit (EvSucceeded i);; ret true
      | Return false => try_strategies (S i) rest checkpoint mi
      | Raise e => emit (EvFailed i e);; try_strategies (S i) rest checkpoint mi
      end
  end.

Definition _convert_yolov7_checkpoint : M bool :=
  try_except
    (checkpoint ← lift (torch_load ext (Some false) input_path);
     mi ← lift (_extract_yolov7_info checkpoint);
     done ← try_strategies 1 conversion_strategies checkpoint mi;
     if done : bool then ret true
     else _generate_yolov7_classes_json mi;; ret false)
    (λ _, _convert_yolov7_alternative).

Definition cleanup : M unit :=
  tracked ← get_temp_onnx_path;
  match tracked with
  | Some p => ex ← FS.exists_ p; if ex : bool then FS.unlink p else ret ()
  | None => ret ()
  end.

Definition convert : M bool :=
  try_finally
    (try_except
       (mkdir_output;;
        if String.eqb (Path.suffix input_path) ".pt" then _convert_pytorch
        else if String.eqb (Path.suffix input_path) ".ckpt"
             then _convert_yolov7_checkpoint
        else if String.eqb (Path.suffix input_path) ".onnx"
             then _convert_onnx None
        else ret false)
       (λ _, ret false))
    cleanup.

(** [_export_yolov7_to_onnx(model_path, model_info)]; no method of the
    class calls it. *)
Definition _export_yolov7_to_onnx (model_path : path) (mi : model_info) : M bool :=
  try_except
    (model ← lift (YOLO ext model_path);
     let temp := output_path </> "temp_model.onnx" in
     set_temp_onnx_path temp;;
     imgsz ← lift (from_option Return (Raise IndexError) (head (input_size mi)));
     let exported_onnx := Path.with_suffix model_path ".onnx" in
     ext_write (yolo_export model imgsz) exported_onnx "export";;
     ex ← FS.exists_ exported_onnx;
     if ex : bool then FS.rename exported_onnx temp;; ret true
     else ret false)
    (λ _, ret false).

End Converter.
End ModelConverter.

(** The state a fresh [ModelConverter(...)] starts from:
    [self.temp_onnx_path = None], nothing logged yet. *)
Definition init (files : gmap path content) : state := State files None [].

(** [validate_model(model_path)], a function of the files on disk. *)
Definition validate_model (files : gmap path content) (model_path : path) : bool :=
  let model_json := model_path </> "model.json" in
  let classes_json := model_path </> "classes.json" in
  let body : result bool :=
    if negb (bool_decide (is_Some (files !! model_json))) then Return false
    else if negb (bool_decide (is_Some (files !! classes_json))) then Return false
    else
      _ ← FS.load_json files model_json;
      config ← FS.load_json files classes_json;
      has ← JSON.contains "classes" config;
      if negb has then Return false else Return true in
  match body with
  | Return b => b
  | Raise _ => false
  end.

(** The command line of [convert_model.py], as [parse_args] returns it. *)
Record cli_args : Type := CliArgs {
  arg_input : path;
  arg_output : path;
  arg_quantize : bool;
  arg_validate : bool
}.

(** [main()] of [convert_model.py] on a command line [parse_args]
    accepted (one it rejects ends the process with status 2 before anything
    else happens): the exit status of the process and the files it leaves.
    [sys.exit(1)] and an exception nobody catches both end the process with
    status 1; the answer of [validate_model] is printed and dropped. *)
Definition main (ext : externals) (args : cli_args) (files : gmap path content)
  : Z * gmap path content :=
  if negb (FS.path_exists files (arg_input args)) then (1%Z, files)
  else
    match ModelConverter.convert ext (arg_input args) (arg_output args)
            (arg_quantize args) (init files) with
    | (Return true, s') =>
        let _ := if arg_validate args
                 then validate_model (fs s') (arg_output args) else false in
        (0%Z, fs s')
    | (Return false, s') => (1%Z, fs s')
    | (Raise _, s') => (1%Z, fs s')
    end.

(** ** [batch_convert.py]: class [BatchConverter] *)

Module BatchConverter.

Fixpoint ends_with_list (sfx s : list ascii) : bool :=
  bool_decide (s = sfx)
  || match s with
     | [] => false
     | _ :: s' => ends_with_list sfx s'
     end.

(** [fnmatch(name, '*' + extension)] *)
Definition matches_extension (extension name : string) : bool :=
  ends_with_list (list_ascii_of_string extension) (list_ascii_of_string name).

(** [models_dir.rglob('*' + extension)]: the files and directories
    anywhere below [models_dir] whose name matches, in the order the file
    system lists them. *)
Definition rglob (files : gmap path content) (models_dir : path)
    (extension : string) : list path :=
  List.filter
    (λ p, bool_decide (models_dir `prefix_of` p)
          && negb (bool_decide (p = models_dir))
          && matches_extension extension (Path.name p))
    (FS.entries files).

(** [models_dir.exists()], for the directory holding the models. *)
Definition dir_exists (files : gmap path content) (d : path) : bool :=
  existsb (λ p, bool_decide (d `prefix_of` p)) (map_to_list files).*1.

Definition determine_model_type (model_path : path) : string :=
  let name := Str.lower (Path.name model_path) in
  if Str.contains "yolov7" name || String.eqb (Path.suffix model_path) ".ckpt" then
    if Str.contains "tiny" name then "yolov7-tiny"
    else if Str.contains "x" name then "yolov7-x"
    else if Str.contains "e6" name then "yolov7-e6"
    else "yolov7"
  else if Str.contains "yolov5" name then
    if Str.contains "s" name then "yolov5s"
    else if Str.contains "m" name then "yolov5m"
    else if Str.contains "l" name then "yolov5l"
    else "yolov5"
  else if Str.contains "yolov8" name then "yolov8"
  else "unknown".

(** Where [convert_model] puts the output of [model_file]. *)
Definition output_dir (model_file : path) : path :=
  Path.parent model_file </> Path.stem model_file.

Definition already_converted (files : gmap path content) (model_file : path) : bool :=
  bool_decide (is_Some (files !! (output_dir model_file </> "model.json"))).

Definition scan_for_models (files : gmap path content) (models_dir : path)
  : list (path * string) :=
  if negb (dir_exists files models_dir) then []
  else
    extension ← [".ckpt"; ".pt"; ".onnx"];
    model_file ← rglob files models_dir extension;
    if already_converted files model_file then []
    else [(model_file, determine_model_type model_file)].

(** [str(e)] for the exceptions that carry a message of the source; the
    texts the interpreter gives its own exceptions are not modelled. *)
Definition exn_str (e : exn) : string :=
  match e with
  | ValueError msg | NotImplementedError msg | ExternalError msg => msg
  | TypeError => "TypeError"
  | KeyError => "KeyError"
  | IndexError => "IndexError"
  | AttributeError => "AttributeError"
  end.

(** [calculate_model_size(model_dir)]: the bytes of every file below
    [model_dir], in MB.  [st_size] gives the bytes a file occupies; the
    quotient is kept exact. *)
Definition calculate_model_size (st_size : content → Z)
    (files : gmap path content) (model_dir : path) : Q :=
  let total_size :=
    foldr (λ (pc : path * content) acc,
             if bool_decide (model_dir `prefix_of` pc.1)
                && negb (bool_decide (pc.1 = model_dir))
             then (acc + st_size pc.2)%Z else acc)
          0%Z (map_to_list files) in
  (inject_Z total_size / inject_Z (1024 * 1024))%Q.

(** [convert_model(model_path, model_type)]: the result record and the
    files left.  [conversion_time] is the rounded difference of the two
    clock readings. *)
Definition convert_model (ext : externals) (quantize : bool)
    (st_size : content → Z) (conversion_time : Q)
    (files : gmap path content) (model_path : path) (model_type : string)
  : pyval * gmap path content :=
  let out := output_dir model_path in
  let failed (status error : string) :=
    PyDict [ (KStr "model", PyStr (Path.name model_path));
             (KStr "type", PyStr model_type);
             (KStr "status", PyStr status);
             (KStr "error", PyStr error) ] in
  match ModelConverter.convert ext model_path out quantize (init files) with
  | (Return true, s') =>
      if validate_model (fs s') out then
        (PyDict [ (KStr "model", PyStr (Path.name model_path));
                  (KStr "type", PyStr model_type);
                  (KStr "status", PyStr "success");
                  (KStr "output_dir", PyStr (Path.str out));
                  (KStr "size_mb",
                    PyFloat (calculate_model_size st_size (fs s') out));
                  (KStr "conversion_time", PyFloat conversion_time);
                  (KStr "quantized", PyBool quantize) ],
         fs s')
      else (failed "validation_failed" "Model validation failed", fs s')
  | (Return false, s') =>
      (failed "conversion_failed" "Model conversion failed", fs s')
  | (Raise e, s') => (failed "error" (exn_str e), fs s')
  end.

(** [result['status']] *)
Definition status (r : pyval) : option string :=
  match r with
  | PyDict kvs =>
      match Py.dict_lookup "status" kvs with
      | Some (PyStr st) => Some st
      | _ => None
      end
  | _ => None
  end.

(** The loop of [convert_all] over the scanned models: the results it
    appends and the files left. *)
Fixpoint convert_each (ext : externals) (quantize : bool)
    (st_size : content → Z) (conversion_time : path → Q)
    (models : list (path * string)) (files : gmap path content)
  : list pyval * gmap path content :=
  match models with
  | [] => ([], files)
  | (model_path, model_type) :: rest =>
      let '(r, files1) :=
        convert_model ext quantize st_size (conversion_time model_path)
                      files model_path model_type in
      let '(rs, files2) :=
        convert_each ext quantize st_size conversion_time rest files1 in
      (r :: rs, files2)
  end.

(** [save_results()], with the text [time.strftime] returned. *)
Definition save_results (timestamp : string) (quantize : bool)
    (results : list pyval) (models_dir : path) (files : gmap path content)
  : result () * gmap path content :=
  let document :=
    PyDict [ (KStr "timestamp", PyStr timestamp);
             (KStr "quantized", PyBool quantize);
             (KStr "results", PyList results) ] in
  (if JSON.encode document is Some _ then Return () else Raise TypeError,
   <[models_dir </> "conversion_results.json" := JSON.dumped document]> files).

(** [convert_all()] of a fresh [BatchConverter]: [self.results] at the end
    and the files left.  [print_summary] only prints what the records
    hold and is left out. *)
Definition convert_all (ext : externals) (quantize : bool)
    (st_size : content → Z) (conversion_time : path → Q) (timestamp : string)
    (models_dir : path) (files : gmap path content)
  : result (list pyval) * gmap path content :=
  match scan_for_models files models_dir with
  | [] => (Return [], files)
  | models =>
      let '(results, files1) :=
        convert_each ext quantize st_size conversion_time models files in
      let '(r, files2) :=
        save_results timestamp quantize results models_dir files1 in
      (match r with Return _ => Return results | Raise e => Raise e end, files2)
  end.

(** [get_performance_tier(model_type)], on whatever value it is handed. *)
Definition get_performance_tier (model_type : pyval) : result string :=
  tiny ← Py.contains "tiny" model_type;
  if tiny : bool then Return "fast"
  else
    x ← Py.contains "x" model_type;
    x_or_l ← (if x : bool then Return true else Py.contains "l" model_type);
    if x_or_l : bool then Return "accurate"
    else
      e6 ← Py.contains "e6" model_type;
      if e6 : bool then Return "premium" else Return "balanced".

(** [[r for r in self.results if r['status'] == 'success']] *)
Fixpoint successful (results : list pyval) : result (list pyval) :=
  match results with
  | [] => Return []
  | r :: rest =>
      st ← Py.getitem "status" r;
      rs ← successful rest;
      Return (if Py.is_str "success" st then r :: rs else rs)
  end.

(** [Path(v)] for a value: only a string makes a path. *)
Definition as_path (v : pyval) : result path :=
  match v with
  | PyStr s => Return (Path.of_str s)
  | _ => Raise TypeError
  end.

(** The [model_info] dict built for one successful result. *)
Definition index_entry (r : pyval) : result pyval :=
  model ← Py.getitem "model" r;
  model_p ← as_path model;
  name ← Py.getitem "model" r;
  type ← Py.getitem "type" r;
  out ← Py.getitem "output_dir" r;
  out_p ← as_path out;
  out' ← Py.getitem "output_dir" r;
  out_p' ← as_path out';
  size_mb ← Py.getitem "size_mb" r;
  quantized ← Py.getitem "quantized" r;
  tier ← get_performance_tier type;
  Return
    (PyDict
       [ (KStr "id", PyStr (Path.stem model_p));
         (KStr "name", name);
         (KStr "type", type);
         (KStr "path", PyStr ("models/" +:+ Path.name out_p +:+ "/model.json"));
         (KStr "config_path",
           PyStr ("models/" +:+ Path.name out_p' +:+ "/classes.json"));
         (KStr "size_mb", size_mb);
         (KStr "quantized", quantized);
         (KStr "performance_tier", PyStr tier) ]).

Fixpoint index_entries (successful_models : list pyval) : result (list pyval) :=
  match successful_models with
  | [] => Return []
  | r :: rest =>
      model_info ← index_entry r;
      infos ← index_entries rest;
      Return (model_info :: infos)
  end.

(** [generate_model_index()] on [self.results], with the text
    [time.strftime] returned. *)
Definition generate_model_index (timestamp : string) (results : list pyval)
    (files : gmap path content) : result () * gmap path content :=
  match successful results with
  | Raise e => (Raise e, files)
  | Return [] => (Return (), files)
  | Return successful_models =>
      match index_entries successful_models with
      | Raise e => (Raise e, files)
      | Return infos =>
          let index :=
            PyDict [ (KStr "models", PyList infos);
                     (KStr "last_updated", PyStr timestamp);
                     (KStr "total_models",
                       PyInt (Z.of_nat (length successful_models))) ] in
          (if JSON.encode index is Some _ then Return () else Raise TypeError,
           <[["web"; "models_index.json"] := JSON.dumped index]> files)
      end
  end.

(** The command line of [batch_convert.py], as [parse_args] returns it. *)
Record batch_args : Type := BatchArgs {
  args_models_dir : path;
  args_quantize : bool;
  args_generate_index : bool
}.

(** [main()] of [batch_convert.py]: the exit status of the process and the
    files it leaves.  The two timestamps are the texts [time.strftime]
    returned for the results file and for the index. *)
Definition main (ext : externals) (st_size : content → Z)
    (conversion_time : path → Q) (results_time index_time : string)
    (args : batch_args) (files : gmap path content)
  : Z * gmap path content :=
  match convert_all ext (args_quantize args) st_size conversion_time
          results_time (args_models_dir args) files with
  | (Raise _, files1) => (1%Z, files1)
  | (Return results, files1) =>
      if args_generate_index args then
        match generate_model_index index_time results files1 with
        | (Return _, files2) => (0%Z, files2)
        | (Raise _, files2) => (1%Z, files2)
        end
      else (0%Z, files1)
  end.

End BatchConverter.

(** ** Sample worlds, used to run the embedding *)

Module Sample.

Definition model_ok : yolo_model :=
  YoloModel (Some (PyDict [(KInt 0, PyStr "crop"); (KInt 1, PyStr "weed")]))
            (λ _, Outcome true false).

Definition graph : json := JObj [("format", JStr "graph-model")].

(** Every collaborator works; [torch.load] returns [checkpoint]. *)
Definition ext_ok (checkpoint : pyval) : externals :=
  Externals (λ _ _, Return checkpoint)
            (λ _ _, Outcome true false)
            (λ _, Return model_ok)
            (λ _, Tfjs (Some (Json graph)) 1).

(** [torch.save] runs out of space after it created its file. *)
Definition ext_save_fails (checkpoint : pyval) : externals :=
  Externals (λ _ _, Return checkpoint)
            (λ _ _, Outcome true true)
            (λ _, Return model_ok)
            (λ _, Tfjs (Some (Json graph)) 1).

Definition input : path := ["models"; "yolov7-tiny.ckpt"].
Definition output : path := ["models"; "yolov7-tiny"].

(** A blob without any model-bearing key. *)
Definition unknown_blob : pyval :=
  PyDict [ (KStr "epoch", PyInt 3);
           (KStr "names", PyDict [(KInt 0, PyStr "crop"); (KInt 1, PyStr "weed")]) ].


(** A blob whose class names are bytes objects, which [json] rejects. *)
Definition bytes_names_blob : pyval :=
  PyDict [(KStr "names", PyList [PyOpaque; PyOpaque])].

(** A blob with a model and an empty list of class names. *)
Definition no_names_blob : pyval :=
  PyDict [(KStr "model", PyOpaque); (KStr "names", PyList [])].

(** A loaded model without a [names] attribute. *)
Definition model_without_names : yolo_model :=
  YoloModel None (λ _, Outcome true false).

(** A loaded model whose [names] are bytes objects. *)
Definition model_with_bytes_names : yolo_model :=
  YoloModel (Some (PyList [PyOpaque; PyOpaque])) (λ _, Outcome true false).

(** An output directory whose [classes.json] is the array [["classes"]]. *)
Definition array_descriptor : gmap path content :=
  <[output </> "model.json" := Json graph]>
    (<[output </> "classes.json" := Json (JArr [JStr "classes"])]> ∅).

(** A models directory with one converted and one new checkpoint. *)
Definition models : gmap path content :=
  <[["models"; "yolov7-tiny.ckpt"] := Raw]>
    (<[["models"; "yolov7-tiny"; "model.json"] := Json graph]>
       (<[["models"; "yolov5s.pt"] := Raw]> ∅)).


(** A [.pt] model next to its output directory. *)
Definition pt_input : path := ["models"; "yolov5s.pt"].
Definition pt_output : path := ["models"; "yolov5s"].

(** Every collaborator fails. *)
Definition ext_broken : externals :=
  Externals (λ _ _, Raise (ExternalError "torch.load"))
            (λ _ _, Outcome false true)
            (λ _, Raise (ExternalError "YOLO"))
            (λ _, Tfjs None 0).

(** A blob with a model and class names, as a training run saves it. *)
Definition trained_blob : pyval :=
  PyDict [ (KStr "model", PyModule (PyDict []));
           (KStr "names",
             PyDict [(KInt 0, PyStr "crop"); (KInt 1, PyStr "weed")]) ].

End Sample.

(** ** Observations on a run *)

(** The strategies the loop announced, in the order it announced them. *)
Fixpoint attempts (l : list event) : list (nat * string) :=
  match l with
  | [] => []
  | EvTrying i name :: l' => (i, name) :: attempts l'
  | _ :: l' => attempts l'
  end.

(** The four strategies of a checkpoint conversion, as listed in the source. *)
Definition listed_strategies : list (nat * string) :=
  [ (1, "_strategy_ultralytics_export");
    (2, "_strategy_direct_onnx_export");
    (3, "_strategy_manual_reconstruction");
    (4, "_strategy_fallback_conversion") ].

(** A number in the closed unit interval. *)
Definition in_unit_interval (j : json) : Prop :=
  match j with
  | JFloat q => (0 <= q)%Q ∧ (q <= 1)%Q
  | JInt n => (0 ≤ n ≤ 1)%Z
  | _ => False
  end.

(** A computation leaves the log alone and, if it changes the tracked
    interim ONNX path at all, sets it to [t]. *)
Definition quiet (t : path) (s s' : state) : Prop :=
  log s' = log s
  ∧ (temp_onnx_path s' = temp_onnx_path s ∨ temp_onnx_path s' = Some t).

Definition temp_onnx_path_ok (t : path) (s s' : state) : Prop :=
  temp_onnx_path s' = temp_onnx_path s ∨ temp_onnx_path s' = Some t.

(** A computation leaves the file at [p] as it found it, or removes it. *)
Definition keeps (p : path) (s s' : state) : Prop :=
  fs s' !! p = None ∨ fs s' !! p = fs s !! p.

Definition respects {A} (R : state → state → Prop) (m : M A) : Prop :=
  ∀ s, R s (m s).2.

(** The shapes the log of one pass over a list of numbered strategies can
    take, with the value the loop hands back: a strategy that declines
    (returns [False]) prints nothing more, one that raises prints its
    failure, and in both cases the rest of the list follows; a strategy that
    succeeds ends the log. *)
Inductive chain_trace : list (nat * string) → list event → result bool → Prop :=
| chain_exhausted :
    chain_trace [] [] (Return false)
| chain_success i name rest :
    chain_trace ((i, name) :: rest) [EvTrying i name; EvSucceeded i] (Return true)
| chain_declined i name rest tr r :
    chain_trace rest tr r →
    chain_trace ((i, name) :: rest) (EvTrying i name :: tr) r
| chain_raised i name rest e tr r :
    chain_trace rest tr r →
    chain_trace ((i, name) :: rest) (EvTrying i name :: EvFailed i e :: tr) r.

(** [enumerate(names, i)] *)
Fixpoint enumerate (i : nat) (names : list string) : list (nat * string) :=
  match names with
  | [] => []
  | name :: names' => (i, name) :: enumerate (S i) names'
  end.

(** The document of a YOLOv7 descriptor, given the one of its class list. *)
Definition yolov7_document (mi : model_info) (jc : json) : json :=
  JObj
    [ ("classes", jc);
      ("modelType", JStr ("yolov7-" +:+ variant mi));
      ("inputSize", JArr (JInt <$> input_size mi));
      ("threshold", JFloat 0.35);
      ("iouThreshold", JFloat 0.65);
      ("description",
        JStr ("YOLOv7 " +:+ variant mi +:+ " model for crop/weed detection"));
      ("optimizedFor", JStr "agricultural_detection");
      ("performance", JStr (performance_of (variant mi))) ].

(** A re-parsed metadata descriptor is in order: the three members are
    there and both thresholds lie in the unit interval.  Nothing is asked
    of the class list itself. *)
Definition descriptor_ok (j : json) : Prop :=
  JSON.has_field "classes" j = true
  ∧ ∃ t u, JSON.get_field "threshold" j = Some t
           ∧ JSON.get_field "iouThreshold" j = Some u
           ∧ in_unit_interval t ∧ in_unit_interval u.

(** The document of a YOLOv5 descriptor, given the one of its class list. *)
Definition yolov5_document (jc : json) : json :=
  JObj
    [ ("classes", jc);
      ("modelType", JStr "yolov5");
      ("inputSize", JArr [JInt 640; JInt 640]);
      ("anchors",
        JArr [ JArr (JInt <$> [10; 13; 16; 30; 33; 23]%Z);
               JArr (JInt <$> [30; 61; 62; 45; 59; 119]%Z);
               JArr (JInt <$> [116; 90; 156; 198; 373; 326]%Z) ]);
      ("strides", JArr (JInt <$> [8; 16; 32]%Z));
      ("threshold", JFloat 0.5);
      ("iouThreshold", JFloat 0.45) ].

(** The state after the strategy loop printed a line. *)
Definition printed (e : event) (s : state) : state :=
  State (fs s) (temp_onnx_path s) (log s ++ [e]).

(** The strategy chain as the specification words it, over what the
    strategies themselves do: from [s] the strategies are run in the listed
    order; the first that returns [True] ends the chain with success; one
    that returns [False] or raises is followed by the next, a raised
    exception being printed as that strategy's failure; with the list used
    up the chain has failed.  [chain_run checkpoint mi i l s b s'] says that
    running the list [l], numbered from [i], from state [s] ends in [s']
    with answer [b]. *)
Inductive chain_run (checkpoint : pyval) (mi : model_info)
  : nat → list (string * strategy) → state → bool → state → Prop :=
| run_exhausted i s :
    chain_run checkpoint mi i [] s false s
| run_succeeded i name strat rest s s1 :
    strat checkpoint mi (printed (EvTrying i name) s) = (Return true, s1) →
    chain_run checkpoint mi i ((name, strat) :: rest) s true
              (printed (EvSucceeded i) s1)
| run_declined i name strat rest s s1 b s2 :
    strat checkpoint mi (printed (EvTrying i name) s) = (Return false, s1) →
    chain_run checkpoint mi (S i) rest s1 b s2 →
    chain_run checkpoint mi i ((name, strat) :: rest) s b s2
| run_raised i name strat rest s e s1 b s2 :
    strat checkpoint mi (printed (EvTrying i name) s) = (Raise e, s1) →
    chain_run checkpoint mi (S i) rest (printed (EvFailed i e) s1) b s2 →
    chain_run checkpoint mi i ((name, strat) :: rest) s b s2.

(** A computation leaves [self.temp_onnx_path] alone or sets it to [t];
    it may print. *)
Definition tracks (t : path) (s s' : state) : Prop :=
  temp_onnx_path s' = temp_onnx_path s ∨ temp_onnx_path s' = Some t.

(** A result record of the batch converter that belongs to the scanned
    model [m]: it names the model file and the type the scan gave it, and
    it carries a status. *)
Definition record_of (m : path * string) (r : pyval) : Prop :=
  ∃ kvs, r = PyDict kvs
    ∧ Py.dict_lookup "model" kvs = Some (PyStr (Path.name m.1))
    ∧ Py.dict_lookup "type" kvs = Some (PyStr m.2)
    ∧ is_Some (BatchConverter.status r).

(** A string that can stand as one component of a path: [Path] keeps it
    and it holds no separator. *)
Definition proper_name (x : string) : bool :=
  Path.kept x && negb (Str.contains "/" x).

(** The result records [generate_model_index] selects. *)
Definition succeeded (r : pyval) : bool :=
  bool_decide (BatchConverter.status r = Some "success").

Definition tiers : list string := ["fast"; "accurate"; "premium"; "balanced"].

(** A result record the index can be built from: it carries a status, and
    when that is [success] its index entry exists and can be written. *)
Definition indexable (r : pyval) : Prop :=
  (∃ kvs st, r = PyDict kvs ∧ Py.dict_lookup "status" kvs = Some (PyStr st))
  ∧ (succeeded r = true →
       ∃ info j, BatchConverter.index_entry r = Return info
                 ∧ JSON.encode info = Some j).

(** [p] is a file somewhere below the directory [d]. *)
Definition strictly_below (d p : path) : bool :=
  bool_decide (d `prefix_of` p) && negb (bool_decide (p = d)).

(** The bytes of a megabyte. *)
Definition MB : Q := inject_Z (1024 * 1024).

(** The files the code of [convert] itself may create, change or remove:
    the two results and the two interim files in the output directory, and
    the ONNX file the export leaves beside a [.pt] input. *)
Definition footprint (input output : path) : list path :=
  [ output </> "model.json"; output </> "classes.json";
    output </> "temp_model.pt"; output </> "temp_model.onnx";
    Path.with_suffix input ".onnx" ].

(** What a conversion may touch: its footprint and the weight shards the
    converter command leaves in the output directory. *)
Definition touched (input output p : path) : Prop :=
  p ∈ footprint input output ∨ ∃ i n, p = output </> shard_name i n.

(** From a state whose [self.temp_onnx_path] is unset or [t], a step that
    keeps it so and leaves every file alone that [may] does not hold of. *)
Definition within (may : path → Prop) (t : path) (s s' : state) : Prop :=
  (temp_onnx_path s = None ∨ temp_onnx_path s = Some t) →
  (temp_onnx_path s' = None ∨ temp_onnx_path s' = Some t)
  ∧ ∀ p, ¬ may p → fs s' !! p = fs s !! p.

(** ** Theorems *)

Section MonadFacts.

Context (R : state → state → Prop).
Hypothesis R_refl : ∀ s, R s s.
Hypothesis R_trans : ∀ s1 s2 s3, R s1 s2 → R s2 s3 → R s1 s3.

Lemma respects_ret {A} (a : A) : respects R (ret a).
Proof. intros s. apply R_refl. Qed.

Lemma respects_mret {A} (a : A) : respects R (mret a : M A).
Proof. intros s. apply R_refl. Qed.

Lemma respects_raise {A} (e : exn) : respects R (@raise A e).
Proof. intros s. apply R_refl. Qed.

Lemma respects_lift {A} (r : result A) : respects R (lift r).
Proof. intros s. apply R_refl. Qed.

Lemma respects_bind {A B} (m : M A) (k : A → M B) :
  respects R m → (∀ a, respects R (k a)) → respects R (m ≫= k).
Proof.
  intros Hm Hk s. unfold mbind, M_bind, bind.
  specialize (Hm s). destruct (m s) as [[a|e] s1]; simpl in *.
  - eapply R_trans; [exact Hm | apply Hk].
  - exact Hm.
Qed.

Lemma respects_try_except {A} (body : M A) (h : exn → M A) :
  respects R body → (∀ e, respects R (h e)) → respects R (try_except body h).
Proof.
  intros Hb Hh s. unfold try_except.
  specialize (Hb s). destruct (body s) as [[a|e] s1]; simpl in *.
  - exact Hb.
  - eapply R_trans; [exact Hb | apply Hh].
Qed.

Lemma respects_try_finally {A} (body : M A) (fin : M unit) :
  respects R body → respects R fin → respects R (try_finally body fin).
Proof.
  intros Hb Hf s. unfold try_finally.
  specialize (Hb s). destruct (body s) as [r s1]; simpl in *.
  specialize (Hf s1). destruct (fin s1) as [[u|e] s2]; simpl in *;
    eapply R_trans; eauto.
Qed.

Lemma respects_attempt {A} (m : M A) : respects R m → respects R (attempt m).
Proof.
  intros Hm s. unfold attempt. specialize (Hm s).
  destruct (m s) as [r s1]. exact Hm.
Qed.

End MonadFacts.

Section Quiet.

Variable t : path.

Lemma quiet_refl s : quiet t s s.
Proof. split; [reflexivity | left; reflexivity]. Qed.

Lemma quiet_trans s1 s2 s3 : quiet t s1 s2 → quiet t s2 s3 → quiet t s1 s3.
Proof.
  intros [Hl1 Ht1] [Hl2 Ht2]. split; [congruence |].
  destruct Ht2 as [Ht2 | Ht2]; [rewrite Ht2; exact Ht1 | right; exact Ht2].
Qed.

Lemma quiet_with_fs f : respects (quiet t) (with_fs f).
Proof. intros s. split; [reflexivity | left; reflexivity]. Qed.

Lemma quiet_exists p : respects (quiet t) (FS.exists_ p).
Proof. intros s. apply quiet_refl. Qed.

Lemma quiet_set_temp : respects (quiet t) (set_temp_onnx_path t).
Proof. intros s. split; [reflexivity | right; reflexivity]. Qed.

Lemma quiet_get_temp : respects (quiet t) get_temp_onnx_path.
Proof. intros s. apply quiet_refl. Qed.

End Quiet.

(** Decomposes a monadic program into its primitive steps. *)
Ltac quiet_step t :=
  first
    [ apply (respects_ret (quiet t) (quiet_refl t))
    | apply (respects_mret (quiet t) (quiet_refl t))
    | apply (respects_raise (quiet t) (quiet_refl t))
    | apply (respects_lift (quiet t) (quiet_refl t))
    | apply quiet_with_fs
    | apply quiet_exists
    | apply quiet_set_temp
    | apply quiet_get_temp
    | apply (respects_bind (quiet t) (quiet_trans t))
    | apply (respects_try_except (quiet t) (quiet_trans t))
    | apply (respects_try_finally (quiet t) (quiet_trans t))
    | apply (respects_attempt (quiet t))
    | match goal with
      | |- respects _ (if ?b then _ else _) => destruct b
      | |- respects _ (match ?x with _ => _ end) => destruct x
      end ].

Ltac quiet_auto t := repeat (intros; quiet_step t).

Section ConverterFacts.

Variable ext : externals.
Variables input_path output_path : path.
Variable quantize : bool.

Let temp : path := output_path </> "temp_model.onnx".

Lemma quiet_ultralytics checkpoint mi :
  respects (quiet temp)
    (ModelConverter._strategy_ultralytics_export
       ext input_path output_path quantize checkpoint mi).
Proof.
  unfold ModelConverter._strategy_ultralytics_export, FS.rename, FS.unlink.
  quiet_auto temp.
Qed.

Lemma quiet_fallback checkpoint mi :
  respects (quiet temp)
    (ModelConverter._strategy_fallback_conversion output_path checkpoint mi).
Proof.
  unfold ModelConverter._strategy_fallback_conversion.
  quiet_auto temp.
Qed.

End ConverterFacts.

(** *** The metadata synthesizers, step by step *)

Lemma generate_yolov7_run output mi s :
  ModelConverter._generate_yolov7_classes_json output mi s =
  (Return (),
   State (<[output </> "classes.json" := JSON.dumped (yolov7_config mi)]> (fs s))
         (temp_onnx_path s) (log s)).
Proof.
  unfold ModelConverter._generate_yolov7_classes_json, try_except, json_dump,
    JSON.dumped, FS.write, with_fs, lift, mbind, M_bind, bind, ret, raise.
  destruct (JSON.encode (yolov7_config mi)) as [j|]; simpl; [|reflexivity].
  destruct (Py.len (classes mi)); reflexivity.
Qed.

(** [_generate_classes_json] leaves either the YOLOv5 descriptor or, when
    anything went wrong, the minimal one. *)
Lemma generate_classes_run output model s :
  let class_names := default (PyList []) (yolo_names model) in
  ModelConverter._generate_classes_json output model s =
  (Return (),
   State (<[output </> "classes.json" :=
             match JSON.encode (yolov5_config class_names),
                   Py.len (Py.values_if_dict class_names) with
             | Some j, Return _ => Json j
             | _, _ => JSON.dumped minimal_config
             end]> (fs s))
         (temp_onnx_path s) (log s)).
Proof.
  intros class_names.
  unfold ModelConverter._generate_classes_json, try_except, json_dump,
    FS.write, with_fs, lift, mbind, M_bind, bind, ret, raise.
  fold class_names. unfold JSON.dumped at 1.
  destruct (JSON.encode (yolov5_config class_names)) as [j|]; simpl.
  - destruct (Py.len (Py.values_if_dict class_names)); simpl.
    + reflexivity.
    + rewrite insert_insert_eq. reflexivity.
  - rewrite insert_insert_eq. reflexivity.
Qed.

(** *** Probing a checkpoint that is a mapping *)



Lemma extract_dict input kvs :
  ∃ mi, ModelConverter._extract_yolov7_info input (PyDict kvs) = Return mi.
Proof.
  unfold ModelConverter._extract_yolov7_info. simpl.
  destruct (Py.dict_lookup "names" kvs) as [v|] eqn:E; simpl; eauto.
Qed.



Lemma path_div_inj (p : path) (a b : string) : p </> a = p </> b → a = b.
Proof.
  unfold Path.div. intros H. apply app_inv_head in H. congruence.
Qed.

(** *** Creating the output directory *)

Lemma mkdir_output_run output s :
  ModelConverter.mkdir_output output s
  = (if FS.blocked (fs s) output
     then Raise (ExternalError "FileExistsError") else Return (), s).
Proof.
  unfold ModelConverter.mkdir_output.
  destruct (FS.blocked (fs s) output); reflexivity.
Qed.

Lemma respects_mkdir (R : state → state → Prop) output :
  (∀ s, R s s) → respects R (ModelConverter.mkdir_output output).
Proof. intros HR s. rewrite mkdir_output_run. apply HR. Qed.

(** With the way free, [convert] is the dispatch on the suffix inside its
    handlers. *)
Lemma convert_unblocked ext input output quantize s :
  FS.blocked (fs s) output = false →
  ModelConverter.convert ext input output quantize s
  = try_finally
      (try_except
         (ret ();;
          if String.eqb (Path.suffix input) ".pt"
          then ModelConverter._convert_pytorch ext input output quantize
          else if String.eqb (Path.suffix input) ".ckpt"
               then ModelConverter._convert_yolov7_checkpoint
                      ext input output quantize
          else if String.eqb (Path.suffix input) ".onnx"
               then ModelConverter._convert_onnx ext input output quantize None
          else ret false)
         (λ _, ret false))
      ModelConverter.cleanup s.
Proof.
  intros Hfree.
  unfold ModelConverter.convert, try_finally, try_except.
  unfold mbind at 1, M_bind at 1, bind at 1.
  rewrite mkdir_output_run, Hfree.
  reflexivity.
Qed.

(** With a regular file in the way nothing is tried and nothing changes. *)
Lemma convert_blocked ext input output quantize files :
  FS.blocked files output = true →
  ModelConverter.convert ext input output quantize (init files)
  = (Return false, init files).
Proof.
  intros Hblocked.
  unfold ModelConverter.convert, try_finally, try_except.
  unfold mbind at 1, M_bind at 1, bind at 1.
  rewrite mkdir_output_run. cbn [fs init]. rewrite Hblocked.
  reflexivity.
Qed.

(** A directory that is there can be made again. *)
Lemma blocked_is_dir files d : FS.is_dir files d = true → FS.blocked files d = false.
Proof. unfold FS.blocked. intros ->. reflexivity. Qed.

(** *** What the converter command leaves *)

Lemma shard_name_first i n : String.get 0 (shard_name i n) = Some "g"%char.
Proof. reflexivity. Qed.

Lemma string_length_app (a b : string) :
  String.length (a +:+ b) = (String.length a + String.length b)%nat.
Proof.
  induction a as [|c a IH]; [reflexivity |].
  change (S (String.length (a +:+ b)) = S (String.length a + String.length b)).
  f_equal. exact IH.
Qed.

Lemma string_append_assoc (a b c : string) : (a +:+ b) +:+ c = a +:+ (b +:+ c).
Proof.
  induction a as [|x a IH]; [reflexivity |].
  change (String x ((a +:+ b) +:+ c) = String x (a +:+ (b +:+ c))).
  f_equal. exact IH.
Qed.

Lemma shard_name_bin i n : ∃ pre, shard_name i n = pre +:+ ".bin".
Proof.
  unfold shard_name.
  exists ("group1-shard" +:+ pretty i +:+ "of" +:+ pretty n).
  rewrite !string_append_assoc. reflexivity.
Qed.

Lemma onnx_ne_shard (stem : string) i n : stem +:+ ".onnx" ≠ shard_name i n.
Proof.
  destruct (shard_name_bin i n) as [pre ->]. intros H.
  pose proof (f_equal String.length H) as Hlen.
  rewrite !string_length_app in Hlen. simpl in Hlen.
  pose proof (String.append_correct2 stem ".onnx" 4) as Hx.
  pose proof (String.append_correct2 pre ".bin" 3) as Hn.
  rewrite H in Hx.
  replace (4 + String.length stem)%nat with (3 + String.length pre)%nat in Hx
    by lia.
  rewrite <- Hn in Hx. discriminate Hx.
Qed.

Lemma sibling_ne_shard (out : path) (a : string) i n :
  String.get 0 a ≠ Some "g"%char → out </> a ≠ out </> shard_name i n.
Proof.
  intros Ha H. apply path_div_inj in H. subst a.
  apply Ha, shard_name_first.
Qed.

Lemma lookup_write_shards (out : path) (k : nat) (m : gmap path content)
    (p : path) (l : list nat) :
  (∀ i, p ≠ out </> shard_name i k) →
  foldr (λ i acc, <[out </> shard_name i k := Raw]> acc) m l !! p = m !! p.
Proof.
  intros Hp. induction l as [|i l IH]; [reflexivity |].
  cbn [foldr]. rewrite lookup_insert_ne by (intros H; exact (Hp i (eq_sym H))).
  exact IH.
Qed.

Lemma lookup_write_tfjs_model out o m :
  write_tfjs out o m !! (out </> "model.json")
  = match tfjs_model o with
    | Some c => Some c
    | None => m !! (out </> "model.json")
    end.
Proof.
  unfold write_tfjs. destruct (tfjs_model o) as [c|].
  - apply lookup_insert_eq.
  - apply lookup_write_shards. intros i. apply sibling_ne_shard. discriminate.
Qed.

Lemma lookup_write_tfjs_ne out o m p :
  p ≠ out </> "model.json" →
  (∀ i, p ≠ out </> shard_name i (tfjs_shards o)) →
  write_tfjs out o m !! p = m !! p.
Proof.
  intros Hm Hp. unfold write_tfjs. destruct (tfjs_model o) as [c|].
  - rewrite lookup_insert_ne by congruence. apply lookup_write_shards, Hp.
  - apply lookup_write_shards, Hp.
Qed.

(** A file of the output directory that is neither [model.json] nor named
    like a shard. *)
Lemma lookup_write_tfjs_sibling out o m (a : string) :
  a ≠ "model.json" → String.get 0 a ≠ Some "g"%char →
  write_tfjs out o m !! (out </> a) = m !! (out </> a).
Proof.
  intros Hm Ha. apply lookup_write_tfjs_ne.
  - intros H. apply path_div_inj in H. contradiction.
  - intros i. apply sibling_ne_shard, Ha.
Qed.



(** The [.onnx] file beside an input. *)
Lemma lookup_write_tfjs_exported out o m (input : path) :
  write_tfjs out o m !! Path.with_suffix input ".onnx"
  = m !! Path.with_suffix input ".onnx".
Proof.
  apply lookup_write_tfjs_ne; unfold Path.with_suffix, Path.div; intros H.
  - apply app_inj_tail in H as [_ H].
    revert H. generalize (Path.stem input). intros stem H.
    repeat (destruct stem as [|? stem]; simpl in H;
            [discriminate H | first [discriminate H | injection H as _ H]]).
  - intros H'. apply app_inj_tail in H' as [_ H']. exact (onnx_ne_shard _ _ _ H').
Qed.

Lemma write_tfjs_model_json out o m :
  is_Some (m !! (out </> "model.json")) →
  is_Some (write_tfjs out o m !! (out </> "model.json")).
Proof.
  rewrite lookup_write_tfjs_model. destruct (tfjs_model o); eauto.
Qed.

(** *** The strategy loop *)

Section Chain.

Variable t : path.
Variables (checkpoint : pyval) (mi : model_info).

Lemma try_strategies_trace strategies :
  Forall (λ ns : string * strategy, respects (quiet t) (ns.2 checkpoint mi))
         strategies →
  ∀ i s r s',
    ModelConverter.try_strategies i strategies checkpoint mi s = (r, s') →
    ∃ tr,
      log s' = log s ++ tr
      ∧ temp_onnx_path_ok t s s'
      ∧ chain_trace (enumerate i strategies.*1) tr r
      ∧ ∀ j e, EvFailed j e ∈ tr →
          (i ≤ j)%nat
          ∧ ∃ ns s0 s1, strategies !! (j - i)%nat = Some ns
                        ∧ ns.2 checkpoint mi s0 = (Raise e, s1).
Proof.
  unfold temp_onnx_path_ok.
  induction 1 as [|[name strat] rest Hq _ IH]; intros i s r s' Hrun.
  - inversion Hrun; subst. exists []. rewrite app_nil_r.
    split; [reflexivity |]. split; [left; reflexivity |].
    split; [constructor |]. intros j e Hin. inversion Hin.
  - simpl in Hrun.
    unfold mbind, M_bind, bind, attempt, emit, ret in Hrun.
    cbv beta iota in Hrun.
    set (s0 := State (fs s) (temp_onnx_path s) (log s ++ [EvTrying i name]))
      in Hrun.
    pose proof (Hq s0) as Hq0. simpl in Hq0.
    destruct (strat checkpoint mi s0) as [[[|]|e] s1] eqn:Hstrat;
      simpl in Hq0; destruct Hq0 as [Hlog Htmp].
    + inversion Hrun; subst. exists [EvTrying i name; EvSucceeded i]. simpl.
      rewrite Hlog. simpl. rewrite <- app_assoc.
      split; [reflexivity |]. split; [exact Htmp |].
      split; [constructor |]. intros j e Hin.
      apply elem_of_cons in Hin as [Hin | Hin]; [discriminate |].
      apply list_elem_of_singleton in Hin. discriminate.
    + destruct (IH _ _ _ _ Hrun) as (tr & Hl & Ht & Hc & Hf).
      exists (EvTrying i name :: tr).
      rewrite Hl, Hlog. simpl. rewrite <- app_assoc.
      split; [reflexivity |]. split.
      * destruct Ht as [Ht | Ht]; [rewrite Ht; exact Htmp | right; exact Ht].
      * split; [apply chain_declined; exact Hc |].
        intros j e Hin.
        apply elem_of_cons in Hin as [Hin | Hin]; [discriminate |].
        destruct (Hf j e Hin) as (Hij & ns & sa & sb & Hns & Hraise).
        split; [lia |]. exists ns, sa, sb. split; [| exact Hraise].
        replace (j - i)%nat with (S (j - S i)) by lia. exact Hns.
    + destruct (IH _ _ _ _ Hrun) as (tr & Hl & Ht & Hc & Hf).
      exists (EvTrying i name :: EvFailed i e :: tr).
      rewrite Hl. simpl. rewrite Hlog. simpl. rewrite <- !app_assoc.
      split; [reflexivity |]. split.
      * destruct Ht as [Ht | Ht]; [simpl in Ht; rewrite Ht; exact Htmp
                                  | right; exact Ht].
      * split; [apply chain_raised; exact Hc |].
        intros j e' Hin.
        apply elem_of_cons in Hin as [Hin | Hin]; [discriminate |].
        apply elem_of_cons in Hin as [Hin | Hin].
        -- inversion Hin; subst. split; [lia |].
           exists (name, strat), s0, s1. rewrite Nat.sub_diag.
           split; [reflexivity | exact Hstrat].
        -- destruct (Hf j e' Hin) as (Hij & ns & sa & sb & Hns & Hraise).
           split; [lia |]. exists ns, sa, sb. split; [| exact Hraise].
           replace (j - i)%nat with (S (j - S i)) by lia. exact Hns.
Qed.

(** The loop does what the chain of the specification says. *)
Lemma try_strategies_chain_run strategies :
  ∀ i s, ∃ b s',
    ModelConverter.try_strategies i strategies checkpoint mi s = (Return b, s')
    ∧ chain_run checkpoint mi i strategies s b s'.
Proof.
  induction strategies as [|[name strat] rest IH]; intros i s.
  - exists false, s. split; [reflexivity | constructor].
  - cbn [ModelConverter.try_strategies].
    unfold mbind, M_bind, bind, attempt, emit, ret. cbv beta iota.
    change (State (fs s) (temp_onnx_path s) (log s ++ [EvTrying i name]))
      with (printed (EvTrying i name) s).
    destruct (strat checkpoint mi (printed (EvTrying i name) s))
      as [[[|]|e] s1] eqn:Hstrat.
    + exists true, (printed (EvSucceeded i) s1).
      split; [reflexivity |]. apply run_succeeded, Hstrat.
    + destruct (IH (S i) s1) as (b & s2 & Hrun & Hchain).
      exists b, s2. split; [exact Hrun |].
      eapply run_declined; eauto.
    + change (State (fs s1) (temp_onnx_path s1) (log s1 ++ [EvFailed i e]))
        with (printed (EvFailed i e) s1).
      destruct (IH (S i) (printed (EvFailed i e) s1)) as (b & s2 & Hrun & Hchain).
      exists b, s2. split; [exact Hrun |].
      eapply run_raised; eauto.
Qed.

End Chain.

(** *** What a log of the loop tells *)

Lemma chain_trace_returns entries tr r :
  chain_trace entries tr r → ∃ b, r = Return b.
Proof. induction 1; eauto. Qed.

Lemma chain_attempts_prefix entries tr r :
  chain_trace entries tr r → attempts tr `prefix_of` entries.
Proof.
  induction 1 as [|i name rest|i name rest tr r _ IH|i name rest e tr r _ IH];
    simpl.
  - reflexivity.
  - apply prefix_cons, prefix_nil.
  - apply prefix_cons, IH.
  - apply prefix_cons, IH.
Qed.

Lemma chain_head_attempted i name rest tr r :
  chain_trace ((i, name) :: rest) tr r → (i, name) ∈ attempts tr.
Proof. inversion 1; subst; simpl; apply list_elem_of_here. Qed.

Lemma last_cons_nonempty {A} (x : A) (l : list A) y :
  last l = Some y → last (x :: l) = Some y.
Proof. destruct l; [discriminate | intros H; exact H]. Qed.

Lemma chain_success_last entries tr r j :
  chain_trace entries tr r →
  EvSucceeded j ∈ tr →
  r = Return true
  ∧ last tr = Some (EvSucceeded j)
  ∧ ∃ name, last (attempts tr) = Some (j, name).
Proof.
  induction 1 as [|i name rest|i name rest tr r _ IH|i name rest e tr r _ IH];
    intros Hin.
  - inversion Hin.
  - apply elem_of_cons in Hin as [Hin | Hin]; [discriminate |].
    apply list_elem_of_singleton in Hin. inversion Hin; subst.
    split; [reflexivity |]. split; [reflexivity |]. exists name. reflexivity.
  - apply elem_of_cons in Hin as [Hin | Hin]; [discriminate |].
    destruct (IH Hin) as (Hr & Hlast & name' & Hatt).
    split; [exact Hr |]. split; [apply last_cons_nonempty, Hlast |].
    exists name'. simpl attempts. apply last_cons_nonempty, Hatt.
  - apply elem_of_cons in Hin as [Hin | Hin]; [discriminate |].
    apply elem_of_cons in Hin as [Hin | Hin]; [discriminate |].
    destruct (IH Hin) as (Hr & Hlast & name' & Hatt).
    split; [exact Hr |].
    split; [apply last_cons_nonempty, last_cons_nonempty, Hlast |].
    exists name'. simpl attempts. apply last_cons_nonempty, Hatt.
Qed.

Lemma chain_true_succeeded entries tr :
  chain_trace entries tr (Return true) → ∃ j, EvSucceeded j ∈ tr.
Proof.
  intros H. remember (Return true) as r eqn:Er.
  induction H as [|i name rest|i name rest tr r _ IH|i name rest e tr r _ IH].
  - discriminate.
  - exists i. apply list_elem_of_further, list_elem_of_here.
  - destruct (IH Er) as [j Hj]. exists j. apply list_elem_of_further, Hj.
  - destruct (IH Er) as [j Hj]. exists j.
    apply list_elem_of_further, list_elem_of_further, Hj.
Qed.

(** Only a success cuts the list short. *)
Lemma chain_false_exhausts entries tr :
  chain_trace entries tr (Return false) → attempts tr = entries.
Proof.
  intros H. remember (Return false) as r eqn:Er.
  induction H as [|i name rest|i name rest tr r _ IH|i name rest e tr r _ IH];
    simpl.
  - reflexivity.
  - discriminate.
  - f_equal. exact (IH Er).
  - f_equal. exact (IH Er).
Qed.

Lemma chain_failed_index entries tr r j e :
  chain_trace entries tr r → EvFailed j e ∈ tr → j ∈ entries.*1.
Proof.
  induction 1 as [|i name rest|i name rest tr r _ IH|i name rest e' tr r _ IH];
    intros Hin; simpl.
  - inversion Hin.
  - apply elem_of_cons in Hin as [Hin | Hin]; [discriminate |].
    apply list_elem_of_singleton in Hin. discriminate.
  - apply elem_of_cons in Hin as [Hin | Hin]; [discriminate |].
    apply list_elem_of_further, IH, Hin.
  - apply elem_of_cons in Hin as [Hin | Hin]; [discriminate |].
    apply elem_of_cons in Hin as [Hin | Hin].
    + inversion Hin; subst. apply list_elem_of_here.
    + apply list_elem_of_further, IH, Hin.
Qed.

(** After a strategy that raised, the strategy listed next is tried. *)
Lemma chain_failed_next entries tr r j e :
  chain_trace entries tr r →
  NoDup entries.*1 →
  EvFailed j e ∈ tr →
  ∀ pre name next post,
    entries = pre ++ (j, name) :: next :: post → next ∈ attempts tr.
Proof.
  induction 1 as [|i nm rest|i nm rest tr r Hc IH|i nm rest e' tr r Hc IH];
    intros Hnd Hin pre name next post Heq.
  - inversion Hin.
  - apply elem_of_cons in Hin as [Hin | Hin]; [discriminate |].
    apply list_elem_of_singleton in Hin. discriminate.
  - apply elem_of_cons in Hin as [Hin | Hin]; [discriminate |].
    simpl in Hnd. apply NoDup_cons in Hnd as [Hfresh Hnd].
    pose proof (chain_failed_index _ _ _ _ _ Hc Hin) as Hj.
    destruct pre as [|p pre]; simpl in Heq; inversion Heq; subst.
    + contradiction.
    + simpl. apply list_elem_of_further. eapply IH; eauto.
  - apply elem_of_cons in Hin as [Hin | Hin]; [discriminate |].
    simpl in Hnd. apply NoDup_cons in Hnd as [Hfresh Hnd].
    apply elem_of_cons in Hin as [Hin | Hin].
    + inversion Hin; subst.
      destruct pre as [|p pre]; simpl in Heq; inversion Heq; subst.
      * destruct next as [i' name']. simpl. apply list_elem_of_further.
        eapply chain_head_attempted. exact Hc.
      * exfalso. apply Hfresh. rewrite fmap_app. simpl.
        apply elem_of_app. right. apply list_elem_of_here.
    + pose proof (chain_failed_index _ _ _ _ _ Hc Hin) as Hj.
      destruct pre as [|p pre]; simpl in Heq; inversion Heq; subst.
      * contradiction.
      * simpl. apply list_elem_of_further. eapply IH; eauto.
Qed.

(** *** One checkpoint conversion *)

Section CheckpointRun.

Variable ext : externals.
Variables input output : path.
Variable quantize : bool.

Let temp : path := output </> "temp_model.onnx".

Lemma listed_strategies_eq :
  enumerate 1 (ModelConverter.conversion_strategies ext input output quantize).*1
  = listed_strategies.
Proof. reflexivity. Qed.

Lemma strategies_quiet checkpoint mi :
  Forall (λ ns : string * strategy, respects (quiet temp) (ns.2 checkpoint mi))
         (ModelConverter.conversion_strategies ext input output quantize).
Proof.
  unfold ModelConverter.conversion_strategies.
  repeat apply List.Forall_cons; simpl; try apply List.Forall_nil.
  - apply quiet_ultralytics.
  - unfold ModelConverter._strategy_direct_onnx_export. quiet_auto temp.
  - unfold ModelConverter._strategy_manual_reconstruction. quiet_auto temp.
  - apply quiet_fallback.
Qed.

Lemma alternative_run s :
  ∃ s', ModelConverter._convert_yolov7_alternative ext input output s
          = (Return false, s')
        ∧ log s' = log s ∧ temp_onnx_path s' = temp_onnx_path s.
Proof.
  unfold ModelConverter._convert_yolov7_alternative, try_except.
  unfold mbind at 1, M_bind at 1, bind at 1, lift at 1.
  destruct (torch_load ext None input) as [ck|e].
  - unfold mbind, M_bind, bind. rewrite generate_yolov7_run. simpl. eauto.
  - simpl. eauto.
Qed.

(** A checkpoint conversion never raises.  Either loading or probing the
    blob failed, nothing was tried and the alternative path answered
    [False]; or the loop ran over the four strategies, and when none
    succeeded the metadata of the extracted info was written last. *)
Lemma convert_yolov7_checkpoint_run s r s' :
  ModelConverter._convert_yolov7_checkpoint ext input output quantize s = (r, s') →
  ∃ tr,
    log s' = log s ++ tr
    ∧ temp_onnx_path_ok temp s s'
    ∧ ((tr = [] ∧ r = Return false)
       ∨ ∃ checkpoint mi,
           torch_load ext (Some false) input = Return checkpoint
           ∧ ModelConverter._extract_yolov7_info input checkpoint = Return mi
           ∧ chain_trace listed_strategies tr r
           ∧ (∀ e, EvFailed 4 e ∈ tr →
              ∃ s0 s1,
                ModelConverter._strategy_fallback_conversion
                  output checkpoint mi s0 = (Raise e, s1))
           ∧ (r = Return false →
              fs s' !! (output </> "classes.json")
                = Some (JSON.dumped (yolov7_config mi)))).
Proof.
  unfold ModelConverter._convert_yolov7_checkpoint, try_except.
  unfold mbind at 1, M_bind at 1, bind at 1, lift at 1.
  destruct (torch_load ext (Some false) input) as [checkpoint|e] eqn:Hload.
  2:{ intros Hrun. destruct (alternative_run s) as (s2 & Hs2 & Hl & Ht).
      rewrite Hs2 in Hrun. inversion Hrun; subst.
      exists []. rewrite app_nil_r. split; [auto |].
      split; [left; exact Ht | left; auto]. }
  unfold mbind at 1, M_bind at 1, bind at 1, lift at 1.
  destruct (ModelConverter._extract_yolov7_info input checkpoint)
    as [mi|e] eqn:Hmi.
  2:{ intros Hrun. destruct (alternative_run s) as (s2 & Hs2 & Hl & Ht).
      rewrite Hs2 in Hrun. inversion Hrun; subst.
      exists []. rewrite app_nil_r. split; [auto |].
      split; [left; exact Ht | left; auto]. }
  unfold mbind at 1, M_bind at 1, bind at 1.
  destruct (ModelConverter.try_strategies 1
              (ModelConverter.conversion_strategies ext input output quantize)
              checkpoint mi s) as [r1 s1] eqn:Hchain.
  destruct (try_strategies_trace temp checkpoint mi _
              (strategies_quiet checkpoint mi) _ _ _ _ Hchain)
    as (tr & Hlog & Htmp & Htrace & Hfailed).
  rewrite listed_strategies_eq in Htrace.
  assert (∀ e, EvFailed 4 e ∈ tr →
            ∃ s0 s1,
              ModelConverter._strategy_fallback_conversion
                output checkpoint mi s0 = (Raise e, s1)) as Hfour.
  { intros e Hin.
    destruct (Hfailed 4%nat e Hin) as (_ & ns & sa & sb & Hns & Hraise).
    simpl in Hns. inversion Hns; subst. simpl in Hraise. eauto. }
  destruct (chain_trace_returns _ _ _ Htrace) as [b ->].
  destruct b.
  - intros Hrun. inversion Hrun; subst.
    exists tr. split; [exact Hlog |]. split; [exact Htmp |].
    right. exists checkpoint, mi. repeat split; auto. discriminate.
  - unfold mbind, M_bind, bind. rewrite generate_yolov7_run.
    intros Hrun. inversion Hrun; subst. simpl.
    exists tr. split; [exact Hlog |]. split; [exact Htmp |].
    right. exists checkpoint, mi. repeat split; auto.
    intros _. apply lookup_insert_eq.
Qed.

Lemma cleanup_run s :
  ∃ files,
    ModelConverter.cleanup s = (Return (), State files (temp_onnx_path s) (log s))
    ∧ (∀ p, temp_onnx_path s = Some p → files !! p = None)
    ∧ (∀ p, temp_onnx_path s ≠ Some p → files !! p = fs s !! p).
Proof.
  unfold ModelConverter.cleanup, get_temp_onnx_path, FS.exists_, FS.unlink,
    with_fs, mbind, M_bind, bind, ret.
  destruct (temp_onnx_path s) as [p|] eqn:Ht; simpl.
  - destruct (fs s !! p) as [c|] eqn:Hp; simpl.
    + rewrite Ht. eexists. split; [reflexivity |]. split.
      * intros q [= <-]. apply lookup_delete_eq.
      * intros q Hq. apply lookup_delete_ne. congruence.
    + destruct s; simpl in *. subst.
      eexists. split; [reflexivity |]. split.
      * intros q [= <-]. exact Hp.
      * reflexivity.
  - destruct s; simpl in *. subst. eexists. split; [reflexivity |].
    split; [discriminate | reflexivity].
Qed.

(** [convert] on a [.ckpt] input: the checkpoint conversion followed by the
    removal of the tracked interim file. *)
Lemma convert_ckpt_run files :
  Path.suffix input = ".ckpt" →
  FS.blocked files output = false →
  ∃ r s1 s',
    ModelConverter._convert_yolov7_checkpoint ext input output quantize
        (init files) = (Return r, s1)
    ∧ ModelConverter.convert ext input output quantize (init files)
        = (Return r, s')
    ∧ log s' = log s1
    ∧ (∀ p, p ≠ temp → fs s' !! p = fs s1 !! p).
Proof.
  intros Hsfx Hfree.
  rewrite convert_unblocked by exact Hfree.
  rewrite Hsfx. simpl String.eqb. cbv iota.
  unfold try_finally, try_except.
  unfold mbind at 1, M_bind at 1, bind at 1, ret at 1.
  destruct (ModelConverter._convert_yolov7_checkpoint ext input output quantize
              (init files)) as [r s1] eqn:Hrun.
  destruct (convert_yolov7_checkpoint_run _ _ _ Hrun) as (tr & Hl & Ht & Hcase).
  assert (∃ b, r = Return b) as [b ->].
  { destruct Hcase as [[_ ->] | (ck & mi & _ & _ & Htr & _ & _)]; [eauto |].
    eapply chain_trace_returns, Htr. }
  destruct (cleanup_run s1) as (files' & Hclean & _ & Hother).
  rewrite Hclean.
  exists b, s1, (State files' (temp_onnx_path s1) (log s1)).
  split; [reflexivity |]. split; [reflexivity |]. split; [reflexivity |].
  intros p Hp. simpl. apply Hother.
  destruct Ht as [Ht | Ht]; rewrite Ht; simpl; congruence.
Qed.

(** Once the blob is loaded and probed, a checkpoint conversion is the
    chain over the four strategies; its log is the one the chain left. *)
Lemma checkpoint_chain_run checkpoint mi s :
  torch_load ext (Some false) input = Return checkpoint →
  ModelConverter._extract_yolov7_info input checkpoint = Return mi →
  ∃ b s1 s2 tr,
    chain_run checkpoint mi 1
      (ModelConverter.conversion_strategies ext input output quantize) s b s1
    ∧ ModelConverter._convert_yolov7_checkpoint ext input output quantize s
      = (Return b, s2)
    ∧ log s2 = log s1
    ∧ (∀ p, (b = false → p ≠ output </> "classes.json") →
            fs s2 !! p = fs s1 !! p)
    ∧ log s1 = log s ++ tr
    ∧ chain_trace listed_strategies tr (Return b).
Proof.
  intros Hload Hmi.
  destruct (try_strategies_chain_run checkpoint mi
              (ModelConverter.conversion_strategies ext input output quantize)
              1%nat s) as (b & s1 & Hrun & Hchain).
  destruct (try_strategies_trace temp checkpoint mi _
              (strategies_quiet checkpoint mi) _ _ _ _ Hrun)
    as (tr & Hlog & _ & Htrace & _).
  rewrite listed_strategies_eq in Htrace.
  unfold ModelConverter._convert_yolov7_checkpoint, try_except.
  unfold mbind at 1, M_bind at 1, bind at 1, lift at 1. rewrite Hload.
  unfold mbind at 1, M_bind at 1, bind at 1, lift at 1. rewrite Hmi.
  unfold mbind at 1, M_bind at 1, bind at 1. rewrite Hrun.
  destruct b.
  - exists true, s1, s1, tr. auto 6.
  - unfold mbind, M_bind, bind. rewrite generate_yolov7_run.
    eexists false, s1, _, tr. split; [exact Hchain |].
    split; [reflexivity |]. split; [reflexivity |].
    split; [| auto].
    intros p Hp. cbn [fs]. apply lookup_insert_ne.
    intros Heq. exact (Hp eq_refl (eq_sym Heq)).
Qed.

End CheckpointRun.

(** Claim C2.  During the conversion of a [.ckpt] input whose output
    directory can be made, once the blob is loaded and probed: the
    conversion is the chain of the specification over the four strategies,
    run from the first one in the listed order, each answer being that of
    the strategy itself ([chain_run]); its log is the log of that chain and
    its files are those the chain left, but for the interim ONNX file and,
    after a failure, the descriptor written last.  The first strategy that
    returns [True] ends the chain and the conversion returns [True]; a
    strategy that raises is printed as failed and followed by the next
    listed one; the conversion itself never raises, and it answers [False]
    only when all four were tried. *)
Theorem strategies_tried_in_listed_order
    ext input output quantize files checkpoint mi :
  Path.suffix input = ".ckpt" →
  FS.blocked files output = false →
  torch_load ext (Some false) input = Return checkpoint →
  ModelConverter._extract_yolov7_info input checkpoint = Return mi →
  ∃ b s1 s',
    ModelConverter.convert ext input output quantize (init files)
      = (Return b, s')
    ∧ chain_run checkpoint mi 1
        (ModelConverter.conversion_strategies ext input output quantize)
        (init files) b s1
    ∧ log s' = log s1
    ∧ (∀ p, p ≠ output </> "temp_model.onnx" →
            (b = false → p ≠ output </> "classes.json") →
            fs s' !! p = fs s1 !! p)
    ∧ (∃ tr, log s' = EvTrying 1 "_strategy_ultralytics_export" :: tr)
    ∧ enumerate 1
        (ModelConverter.conversion_strategies ext input output quantize).*1
      = listed_strategies
    ∧ attempts (log s') `prefix_of` listed_strategies
    ∧ (∀ i, EvSucceeded i ∈ log s' →
         b = true
         ∧ last (log s') = Some (EvSucceeded i)
         ∧ ∃ name, last (attempts (log s')) = Some (i, name))
    ∧ (∀ i e, EvFailed i e ∈ log s' →
         ∀ next, listed_strategies !! i = Some next →
                 next ∈ attempts (log s'))
    ∧ (b = true → ∃ i, EvSucceeded i ∈ log s')
    ∧ (b = false → attempts (log s') = listed_strategies).
Proof.
  intros Hsfx Hfree Hload Hmi.
  destruct (convert_ckpt_run ext input output quantize files Hsfx Hfree)
    as (b & s2 & s' & Hrun & Hconv & Hlog & Hfs).
  destruct (checkpoint_chain_run ext input output quantize checkpoint mi
              (init files) Hload Hmi)
    as (b' & s1 & s2' & tr & Hchain & Hrun' & Hlog2 & Hfs2 & Hlog1 & Htr).
  rewrite Hrun in Hrun'. injection Hrun' as <- <-.
  assert (Hl : log s' = tr) by (rewrite Hlog, Hlog2, Hlog1; reflexivity).
  exists b, s1, s'.
  split; [exact Hconv |]. split; [exact Hchain |].
  split; [congruence |].
  split; [intros p Hp Hc; rewrite Hfs by exact Hp; apply Hfs2, Hc |].
  rewrite Hl. clear Hl Hlog Hlog1 Hlog2.
  split; [inversion Htr; subst; eauto |].
  split; [reflexivity |].
  split; [eapply chain_attempts_prefix, Htr |].
  split.
  { intros i Hin.
    destruct (chain_success_last _ _ _ _ Htr Hin) as (Hr & Hlast & Hname).
    inversion Hr; subst. auto. }
  split.
  { intros i e Hin next Hnext.
    assert (NoDup listed_strategies.*1) as Hnd.
    { unfold listed_strategies. simpl.
      repeat (apply NoDup_cons_2;
              [intros H;
               repeat (apply elem_of_cons in H as [H | H]; [discriminate |]);
               inversion H |]).
      apply NoDup_nil_2. }
    pose proof (chain_failed_index _ _ _ _ _ Htr Hin) as Hi.
    pose proof (chain_failed_next _ _ _ _ _ Htr Hnd Hin) as Hstep.
    simpl in Hi.
    repeat (apply elem_of_cons in Hi as [-> | Hi]);
      [ | | | | inversion Hi ]; simpl in Hnext; inversion Hnext; subst.
    - eapply (Hstep []). reflexivity.
    - eapply (Hstep [_]). reflexivity.
    - eapply (Hstep [_; _]). reflexivity. }
  split.
  { intros ->. eapply chain_true_succeeded, Htr. }
  intros ->. eapply chain_false_exhausts, Htr.
Qed.

Lemma strategies_tried_in_listed_order_witness :
  ∃ b s1 s',
    ModelConverter.convert (Sample.ext_save_fails (PyDict [(KStr "model", PyOpaque)]))
        Sample.input Sample.output false (init ∅)
      = (Return b, s')
    ∧ chain_run (PyDict [(KStr "model", PyOpaque)])
        (ModelInfo crop_weed [640; 640]%Z "yolov7" "tiny" None None) 1
        (ModelConverter.conversion_strategies
           (Sample.ext_save_fails (PyDict [(KStr "model", PyOpaque)]))
           Sample.input Sample.output false)
        (init ∅) b s1
    ∧ log s' = log s1
    ∧ (∀ p, p ≠ Sample.output </> "temp_model.onnx" →
            (b = false → p ≠ Sample.output </> "classes.json") →
            fs s' !! p = fs s1 !! p)
    ∧ (∃ tr, log s' = EvTrying 1 "_strategy_ultralytics_export" :: tr)
    ∧ enumerate 1
        (ModelConverter.conversion_strategies
           (Sample.ext_save_fails (PyDict [(KStr "model", PyOpaque)]))
           Sample.input Sample.output false).*1
      = listed_strategies
    ∧ attempts (log s') `prefix_of` listed_strategies
    ∧ (∀ i, EvSucceeded i ∈ log s' →
         b = true
         ∧ last (log s') = Some (EvSucceeded i)
         ∧ ∃ name, last (attempts (log s')) = Some (i, name))
    ∧ (∀ i e, EvFailed i e ∈ log s' →
         ∀ next, listed_strategies !! i = Some next →
                 next ∈ attempts (log s'))
    ∧ (b = true → ∃ i, EvSucceeded i ∈ log s')
    ∧ (b = false → attempts (log s') = listed_strategies).
Proof.
  apply (strategies_tried_in_listed_order
           (Sample.ext_save_fails (PyDict [(KStr "model", PyOpaque)]))
           Sample.input Sample.output false ∅
           (PyDict [(KStr "model", PyOpaque)])
           (ModelInfo crop_weed [640; 640]%Z "yolov7" "tiny" None None));
    reflexivity.
Defined.

(** *** Encoding the descriptors *)

Lemma encode_list xs :
  JSON.encode (PyList xs) = JArr <$> mapM JSON.encode xs.
Proof. reflexivity. Qed.

Lemma encode_ints l : mapM JSON.encode (PyInt <$> l) = Some (JInt <$> l).
Proof.
  induction l as [|n l IH]; [reflexivity |].
  rewrite !fmap_cons. cbn [mapM]. rewrite IH. reflexivity.
Qed.

Lemma encode_py_ints l : JSON.encode (py_ints l) = Some (JArr (JInt <$> l)).
Proof. unfold py_ints. rewrite encode_list, encode_ints. reflexivity. Qed.

Lemma encode_yolov7_config mi :
  JSON.encode (yolov7_config mi)
  = yolov7_document mi <$> JSON.encode (classes mi).
Proof.
  unfold yolov7_config, yolov7_document.
  change (JSON.encode (PyDict ?kvs)) with
    (JObj <$>
       (fix go (l : list (pykey * pyval)) : option (list (string * json)) :=
          match l with
          | [] => Some []
          | (k, x) :: l' =>
              match JSON.key_name k, JSON.encode x, go l' with
              | Some s, Some j, Some js => Some ((s, j) :: js)
              | _, _, _ => None
              end
          end) kvs).
  cbn [JSON.key_name]. rewrite encode_py_ints.
  destruct (JSON.encode (classes mi)) as [jc|]; reflexivity.
Qed.

(** *** When every strategy raises *)







(** *** The metadata descriptors *)

Lemma encode_yolov5_config class_names :
  JSON.encode (yolov5_config class_names)
  = yolov5_document <$> JSON.encode (Py.values_if_dict class_names).
Proof.
  unfold yolov5_config, yolov5_document.
  change (JSON.encode (PyDict ?kvs)) with
    (JObj <$>
       (fix go (l : list (pykey * pyval)) : option (list (string * json)) :=
          match l with
          | [] => Some []
          | (k, x) :: l' =>
              match JSON.key_name k, JSON.encode x, go l' with
              | Some s, Some j, Some js => Some ((s, j) :: js)
              | _, _, _ => None
              end
          end) kvs).
  cbn [JSON.key_name].
  destruct (JSON.encode (Py.values_if_dict class_names)) as [jc|]; reflexivity.
Qed.

Lemma yolov7_document_ok mi jc : descriptor_ok (yolov7_document mi jc).
Proof.
  split; [reflexivity |].
  exists (JFloat 0.35), (JFloat 0.65).
  split; [reflexivity |]. split; [reflexivity |].
  cbn [in_unit_interval].
  split; split; by apply Qle_bool_imp_le.
Qed.

Lemma yolov5_document_ok jc : descriptor_ok (yolov5_document jc).
Proof.
  split; [reflexivity |].
  exists (JFloat 0.5), (JFloat 0.45).
  split; [reflexivity |]. split; [reflexivity |].
  cbn [in_unit_interval].
  split; split; by apply Qle_bool_imp_le.
Qed.

Lemma minimal_document_ok j :
  JSON.encode minimal_config = Some j → descriptor_ok j.
Proof.
  intros H. vm_compute in H. injection H as <-.
  split; [reflexivity |].
  exists (JFloat 0.5), (JFloat 0.45).
  split; [reflexivity |]. split; [reflexivity |].
  cbn [in_unit_interval].
  split; split; by apply Qle_bool_imp_le.
Qed.

(** Claim C3, at a failing input.  The class names of the checkpoint are
    objects [json] cannot serialise.  [_generate_yolov7_classes_json]
    swallows the error, so the conversion goes on, but it writes no
    fallback: [classes.json] is left as the truncated output, which
    [validate_model] rejects.  On the same class names
    [_generate_classes_json] does write the minimal descriptor. *)
Theorem yolov7_metadata_writes_no_fallback :
  ∃ mi,
    ModelConverter._extract_yolov7_info Sample.input Sample.bytes_names_blob
      = Return mi
    ∧ (ModelConverter._generate_yolov7_classes_json Sample.output mi (init ∅)).1
      = Return ()
    ∧ fs (ModelConverter._generate_yolov7_classes_json Sample.output mi (init ∅)).2
        !! (Sample.output </> "classes.json") = Some Raw
    ∧ fs (ModelConverter._generate_classes_json
            Sample.output Sample.model_with_bytes_names (init ∅)).2
        !! (Sample.output </> "classes.json")
      = Some (JSON.dumped minimal_config)
    ∧ JSON.dumped minimal_config ≠ Raw.
Proof.
  eexists. split; [reflexivity |].
  split; [reflexivity |]. split; [reflexivity |]. split; [reflexivity |].
  discriminate.
Qed.

(** Claim C4, refuted as stated: a checkpoint whose ['names'] is the empty
    list gives an info with an empty class list. *)
Lemma extracted_classes_can_be_empty :
  ∃ mi,
    ModelConverter._extract_yolov7_info Sample.input Sample.no_names_blob
      = Return mi
    ∧ classes mi = PyList []
    ∧ Py.len (classes mi) = Return 0%nat.
Proof. eexists. repeat split; reflexivity. Qed.

(** Claim C4, amended.  The class list of the extracted info is the default
    pair ['crop', 'weed'] when the checkpoint has no ['names'] entry;
    otherwise it is that entry (the values of it, when it is a dict),
    whatever its length. *)
Theorem classes_default_or_names input checkpoint mi :
  ModelConverter._extract_yolov7_info input checkpoint = Return mi →
  (Py.contains "names" checkpoint = Return false
   ∧ classes mi = crop_weed
   ∧ Py.len (classes mi) = Return 2%nat)
  ∨ (∃ names,
       Py.contains "names" checkpoint = Return true
       ∧ Py.getitem "names" checkpoint = Return names
       ∧ classes mi = Py.values_if_dict names).
Proof.
  unfold ModelConverter._extract_yolov7_info.
  destruct (Py.contains "names" checkpoint) as [[|]|e]; simpl;
    [| | discriminate].
  - destruct (Py.getitem "names" checkpoint) as [names|e]; simpl;
      [| discriminate].
    intros [= <-]. right. exists names.
    split; [reflexivity |]. split; [reflexivity |].
    repeat match goal with |- context [if ?b then _ else _] => destruct b end;
      reflexivity.
  - intros [= <-]. left. split; [reflexivity |].
    repeat match goal with |- context [if ?b then _ else _] => destruct b end;
      split; reflexivity.
Qed.

Lemma classes_default_or_names_witness :
  (Py.contains "names" Sample.unknown_blob = Return false
   ∧ classes (ModelInfo (PyList [PyStr "crop"; PyStr "weed"]) [640; 640]%Z
                        "yolov7" "tiny" None None) = crop_weed
   ∧ Py.len (classes (ModelInfo (PyList [PyStr "crop"; PyStr "weed"])
                                [640; 640]%Z "yolov7" "tiny" None None))
     = Return 2%nat)
  ∨ (∃ names,
       Py.contains "names" Sample.unknown_blob = Return true
       ∧ Py.getitem "names" Sample.unknown_blob = Return names
       ∧ classes (ModelInfo (PyList [PyStr "crop"; PyStr "weed"]) [640; 640]%Z
                            "yolov7" "tiny" None None)
         = Py.values_if_dict names).
Proof.
  apply (classes_default_or_names Sample.input Sample.unknown_blob).
  reflexivity.
Defined.

(** Claim C5, refuted as stated: for a model without a [names] attribute
    [_generate_classes_json] writes a descriptor whose class list is
    empty. *)
Lemma written_class_list_can_be_empty :
  ∃ j,
    fs (ModelConverter._generate_classes_json
          Sample.output Sample.model_without_names (init ∅)).2
      !! (Sample.output </> "classes.json") = Some (Json j)
    ∧ JSON.get_field "classes" j = Some (JArr []).
Proof. eexists. split; reflexivity. Qed.

(** Claim C5, amended.  Whatever either synthesizer wrote to
    [classes.json], if it parses again it has a ['classes'] member and the
    members ['threshold'] and ['iouThreshold'], both within [0, 1]. *)
Theorem written_descriptor_has_thresholds output (synth : M unit) s j :
  (∃ mi, synth = ModelConverter._generate_yolov7_classes_json output mi)
  ∨ (∃ model, synth = ModelConverter._generate_classes_json output model) →
  fs (synth s).2 !! (output </> "classes.json") = Some (Json j) →
  descriptor_ok j.
Proof.
  intros [[mi ->] | [model ->]].
  - rewrite generate_yolov7_run. cbn [snd fs]. rewrite lookup_insert_eq.
    unfold JSON.dumped. rewrite encode_yolov7_config.
    destruct (JSON.encode (classes mi)) as [jc|]; simpl; [| discriminate].
    intros [= <-]. apply yolov7_document_ok.
  - rewrite generate_classes_run. cbv zeta. cbn [snd fs].
    rewrite lookup_insert_eq, encode_yolov5_config.
    destruct (JSON.encode (Py.values_if_dict (default (PyList []) (yolo_names model))))
      as [jc|]; simpl.
    + destruct (Py.len (Py.values_if_dict (default (PyList []) (yolo_names model)))).
      * intros [= <-]. apply yolov5_document_ok.
      * unfold JSON.dumped.
        destruct (JSON.encode minimal_config) as [jm|] eqn:E; [| discriminate].
        intros [= <-]. eapply minimal_document_ok, E.
    + unfold JSON.dumped.
      destruct (JSON.encode minimal_config) as [jm|] eqn:E; [| discriminate].
      intros [= <-]. eapply minimal_document_ok, E.
Qed.

Lemma written_descriptor_has_thresholds_witness :
  descriptor_ok
    (yolov7_document default_info (JArr [JStr "crop"; JStr "weed"])).
Proof.
  apply (written_descriptor_has_thresholds Sample.output
           (ModelConverter._generate_yolov7_classes_json Sample.output default_info)
           (init ∅)).
  - left. exists default_info. reflexivity.
  - reflexivity.
Defined.

(** *** The output validator *)


(** Claim C6, at a failing input.  The output directory holds a well-formed
    [model.json] and a [classes.json] that is the JSON array
    [["classes"]]: the parsed descriptor has no ['classes'] member, and
    [validate_model] returns [True]. *)
Theorem validate_accepts_descriptor_without_member :
  Sample.array_descriptor !! (Sample.output </> "classes.json")
    = Some (Json (JArr [JStr "classes"]))
  ∧ JSON.has_field "classes" (JArr [JStr "classes"]) = false
  ∧ validate_model Sample.array_descriptor Sample.output = true.
Proof. repeat split; reflexivity. Qed.

(** *** Interim artifacts *)

(** X5.  The interim ONNX file the converter tracks is gone when [convert]
    returns, whatever happened before: the path [self.temp_onnx_path]
    holds at the end names no file. *)
Lemma tracked_onnx_removed ext input output quantize s r s' :
  ModelConverter.convert ext input output quantize s = (r, s') →
  ∀ p, temp_onnx_path s' = Some p → fs s' !! p = None.
Proof.
  unfold ModelConverter.convert, try_finally.
  match goal with
  | |- context [try_except ?body ?h s] => destruct (try_except body h s) as [r1 s1]
  end.
  destruct (cleanup_run s1) as (files' & Hclean & Hgone & _).
  rewrite Hclean. intros [= <- <-] p Hp. simpl in *. apply Hgone, Hp.
Qed.

(** Claim C7, at a failing input.  The blob has a ['model'] entry and
    [torch.save] raises after it created [temp_model.pt] (the call stands
    before the [try] whose [finally] removes the file): the chain goes on
    to the fallback, [convert] returns [True], and the interim file that
    was not there before is still on disk. *)
Theorem interim_checkpoint_left_when_save_raises :
  fs (init ∅) !! (Sample.output </> "temp_model.pt") = None
  ∧ (ModelConverter.convert
       (Sample.ext_save_fails (PyDict [(KStr "model", PyOpaque)]))
       Sample.input Sample.output false (init ∅)).1 = Return true
  ∧ fs (ModelConverter.convert
          (Sample.ext_save_fails (PyDict [(KStr "model", PyOpaque)]))
          Sample.input Sample.output false (init ∅)).2
      !! (Sample.output </> "temp_model.pt") = Some Raw.
Proof. repeat split; reflexivity. Qed.

(** *** The batch scan *)

(** Claim C8.  A model file whose output directory (the sibling directory
    named after the stem of the file) already holds a [model.json] is not
    in the list [scan_for_models] returns. *)
Theorem converted_models_are_skipped files models_dir model_file :
  is_Some (files !! (Path.parent model_file </> Path.stem model_file
                       </> "model.json")) →
  model_file ∉ (BatchConverter.scan_for_models files models_dir).*1.
Proof.
  intros Hdone Hin.
  unfold BatchConverter.scan_for_models in Hin.
  destruct (negb (BatchConverter.dir_exists files models_dir));
    [inversion Hin |].
  apply list_elem_of_fmap in Hin as ([f ty] & Heq & Hin).
  simpl in Heq. subst f.
  apply list_elem_of_bind in Hin as (extension & Hin & _).
  apply list_elem_of_bind in Hin as (candidate & Hin & _).
  unfold BatchConverter.already_converted, BatchConverter.output_dir in Hin.
  destruct (bool_decide (is_Some (files !! (Path.parent candidate
              </> Path.stem candidate </> "model.json")))) eqn:Hskip.
  - inversion Hin.
  - apply list_elem_of_singleton in Hin. inversion Hin; subst.
    apply bool_decide_eq_false in Hskip. contradiction.
Qed.

Lemma converted_models_are_skipped_witness :
  ["models"; "yolov7-tiny.ckpt"]
    ∈ BatchConverter.rglob Sample.models ["models"] ".ckpt"
  ∧ ["models"; "yolov7-tiny.ckpt"]
      ∉ (BatchConverter.scan_for_models Sample.models ["models"]).*1.
Proof.
  split.
  - vm_compute. apply list_elem_of_here.
  - apply (converted_models_are_skipped Sample.models ["models"]
             ["models"; "yolov7-tiny.ckpt"]).
    vm_compute. eauto.
Defined.

(** *** Classification *)

(** Claim C9, refuted as stated: two conversions of a file with the same
    name get different class names when the blobs differ. *)
Lemma class_names_depend_on_checkpoint :
  ModelConverter._extract_yolov7_info Sample.input (PyDict [])
  ≠ ModelConverter._extract_yolov7_info Sample.input
      (PyDict [(KStr "names", PyList [PyStr "thistle"])]).
Proof. vm_compute. discriminate. Qed.

Lemma determine_model_type_name p1 p2 :
  Path.name p1 = Path.name p2 →
  BatchConverter.determine_model_type p1 = BatchConverter.determine_model_type p2.
Proof.
  intros H. unfold BatchConverter.determine_model_type, Path.suffix.
  rewrite H. reflexivity.
Qed.

(** Claim C9, amended.  The model type the batch scan assigns and the
    family, variant and input size of the extracted info depend on the
    file name only; the class names come from the blob, so two conversions
    agree on the whole info when file name and blob are the same. *)
Theorem classification_depends_on_file_name p1 p2 ck1 ck2 mi1 mi2 :
  Path.name p1 = Path.name p2 →
  ModelConverter._extract_yolov7_info p1 ck1 = Return mi1 →
  ModelConverter._extract_yolov7_info p2 ck2 = Return mi2 →
  BatchConverter.determine_model_type p1 = BatchConverter.determine_model_type p2
  ∧ model_type mi1 = model_type mi2
  ∧ variant mi1 = variant mi2
  ∧ input_size mi1 = input_size mi2
  ∧ (ck1 = ck2 → mi1 = mi2).
Proof.
  intros Hname H1 H2.
  split; [apply determine_model_type_name, Hname |].
  unfold ModelConverter._extract_yolov7_info in H1, H2.
  rewrite <- Hname in H2.
  assert (ck1 = ck2 → mi1 = mi2) as Hsame.
  { intros <-. rewrite H1 in H2. congruence. }
  destruct (Py.contains "names" ck1) as [b1|]; simpl in H1; [| discriminate].
  destruct (Py.contains "names" ck2) as [b2|]; simpl in H2; [| discriminate].
  destruct (if b1 then _ else _) as [c1|]; simpl in H1; [| discriminate].
  destruct (if b2 then _ else _) as [c2|]; simpl in H2; [| discriminate].
  inversion H1; subst mi1. inversion H2; subst mi2. clear H1 H2.
  repeat match goal with |- context [if ?b then _ else _] => destruct b end;
    auto.
Qed.

Lemma classification_depends_on_file_name_witness :
  BatchConverter.determine_model_type Sample.input
    = BatchConverter.determine_model_type ["elsewhere"; "yolov7-tiny.ckpt"]
  ∧ model_type (ModelInfo crop_weed [640; 640]%Z "yolov7" "tiny" None None)
    = model_type (ModelInfo (PyList [PyStr "thistle"]) [640; 640]%Z
                            "yolov7" "tiny" None None)
  ∧ variant (ModelInfo crop_weed [640; 640]%Z "yolov7" "tiny" None None)
    = variant (ModelInfo (PyList [PyStr "thistle"]) [640; 640]%Z
                         "yolov7" "tiny" None None)
  ∧ input_size (ModelInfo crop_weed [640; 640]%Z "yolov7" "tiny" None None)
    = input_size (ModelInfo (PyList [PyStr "thistle"]) [640; 640]%Z
                            "yolov7" "tiny" None None)
  ∧ (PyDict [] = PyDict [(KStr "names", PyList [PyStr "thistle"])] →
     ModelInfo crop_weed [640; 640]%Z "yolov7" "tiny" None None
     = ModelInfo (PyList [PyStr "thistle"]) [640; 640]%Z
                 "yolov7" "tiny" None None).
Proof.
  apply (classification_depends_on_file_name
           Sample.input ["elsewhere"; "yolov7-tiny.ckpt"]
           (PyDict []) (PyDict [(KStr "names", PyList [PyStr "thistle"])]));
    reflexivity.
Defined.

(** When [torch.save] either completes or raises without leaving a file,
    no interim [temp_model.pt] survives a conversion. *)

Section InterimCheckpoint.

Variable ext : externals.
Variables input output : path.
Variable quantize : bool.

Let pt : path := output </> "temp_model.pt".

Hypothesis save_atomic :
  ∀ v p, raised (torch_save ext v p) = true → wrote (torch_save ext v p) = false.

Lemma keeps_refl s : keeps pt s s.
Proof. right. reflexivity. Qed.

Lemma keeps_trans s1 s2 s3 : keeps pt s1 s2 → keeps pt s2 s3 → keeps pt s1 s3.
Proof.
  unfold keeps. intros [H1 | H1] [H2 | H2]; auto; rewrite H2; auto.
Qed.

Lemma keeps_same_fs {A} (m : M A) :
  (∀ s, fs (m s).2 = fs s) → respects (keeps pt) m.
Proof. intros H s. right. rewrite H. reflexivity. Qed.

Lemma keeps_write p c : p ≠ pt → respects (keeps pt) (FS.write p c).
Proof.
  intros Hp s. right. unfold FS.write, with_fs. simpl.
  apply lookup_insert_ne. exact Hp.
Qed.

Lemma keeps_unlink p : respects (keeps pt) (FS.unlink p).
Proof.
  intros s. unfold keeps, FS.unlink, with_fs. simpl.
  destruct (decide (p = pt)) as [-> | Hp].
  - left. apply lookup_delete_eq.
  - right. apply lookup_delete_ne. exact Hp.
Qed.

Lemma keeps_rename src dst : dst ≠ pt → respects (keeps pt) (FS.rename src dst).
Proof.
  intros Hd s. unfold keeps, FS.rename, with_fs, FS.rename_fs. simpl.
  destruct (fs s !! src) as [c|]; [| right; reflexivity].
  rewrite lookup_insert_ne by exact Hd.
  destruct (decide (src = pt)) as [-> | Hs].
  - left. apply lookup_delete_eq.
  - right. apply lookup_delete_ne. exact Hs.
Qed.

Lemma keeps_tfjs out o : out = output → respects (keeps pt) (with_fs (write_tfjs out o)).
Proof.
  intros -> s. right. unfold with_fs. cbn [snd fs].
  apply lookup_write_tfjs_sibling; discriminate.
Qed.

Lemma sibling_ne (a : string) : a ≠ "temp_model.pt" → output </> a ≠ pt.
Proof. intros Ha H. apply path_div_inj in H. contradiction. Qed.

Lemma onnx_name_ne (stem : string) : stem +:+ ".onnx" ≠ "temp_model.pt".
Proof.
  intros H.
  repeat (destruct stem as [|? stem]; simpl in H;
          [discriminate H | first [discriminate H | injection H as _ H]]).
Qed.

Lemma exported_ne (p : path) : Path.with_suffix p ".onnx" ≠ pt.
Proof.
  unfold Path.with_suffix, pt, Path.div. intros H.
  apply app_inj_tail in H as [_ H]. exact (onnx_name_ne _ H).
Qed.

Ltac keeps_step :=
  first
    [ match goal with
      | |- respects _ (ModelConverter.try_strategies _ _ _ _) => fail 2
      | |- respects _ (ModelConverter._convert_pytorch _ _ _ _) => fail 2
      | |- respects _ (ModelConverter._convert_yolov7_checkpoint _ _ _ _) =>
          fail 2
      end
    | apply (respects_ret (keeps pt) keeps_refl)
    | apply (respects_mret (keeps pt) keeps_refl)
    | apply (respects_raise (keeps pt) keeps_refl)
    | apply (respects_lift (keeps pt) keeps_refl)
    | apply keeps_same_fs; reflexivity
    | apply keeps_unlink
    | apply keeps_tfjs; reflexivity
    | apply keeps_write; apply sibling_ne; discriminate
    | apply keeps_rename; apply sibling_ne; discriminate
    | apply (respects_bind (keeps pt) keeps_trans)
    | apply (respects_try_except (keeps pt) keeps_trans)
    | apply (respects_try_finally (keeps pt) keeps_trans)
    | apply (respects_attempt (keeps pt))
    | match goal with
      | |- respects _ (if ?b then _ else _) => destruct b
      | |- respects _ (match ?x with _ => _ end) => destruct x
      end ].

Ltac keeps_auto := repeat (intros; keeps_step).

Lemma keeps_json_dump (a : string) v :
  a ≠ "temp_model.pt" → respects (keeps pt) (json_dump (output </> a) v).
Proof.
  intros Ha. unfold json_dump.
  apply (respects_bind (keeps pt) keeps_trans).
  - apply keeps_write, sibling_ne, Ha.
  - keeps_auto.
Qed.

Lemma keeps_generate_yolov7 mi :
  respects (keeps pt) (ModelConverter._generate_yolov7_classes_json output mi).
Proof.
  intros s. rewrite generate_yolov7_run. right. simpl.
  apply lookup_insert_ne, sibling_ne. discriminate.
Qed.

Lemma keeps_fallback checkpoint mi :
  respects (keeps pt)
    (ModelConverter._strategy_fallback_conversion output checkpoint mi).
Proof.
  unfold ModelConverter._strategy_fallback_conversion.
  keeps_auto;
    first [ apply keeps_generate_yolov7 | apply keeps_json_dump; discriminate ].
Qed.

(** The [finally] clause of the standard export leaves no [temp_model.pt],
    however the body ended. *)
Lemma finally_unlinks {A} (body : M A) s :
  fs (try_finally body
        (ex ← FS.exists_ pt; if ex : bool then FS.unlink pt else ret ()) s).2
    !! pt = None.
Proof.
  unfold try_finally, FS.exists_, FS.unlink, with_fs, mbind, M_bind, bind, ret.
  destruct (body s) as [r s1].
  destruct (fs s1 !! pt) as [c|] eqn:Hc; simpl.
  - apply lookup_delete_eq.
  - exact Hc.
Qed.

Lemma keeps_save_then_finally {A} o (body : M A) :
  (raised o = true → wrote o = false) →
  respects (keeps pt)
    (ext_write o pt "torch.save";;
     try_finally body
       (ex ← FS.exists_ pt; if ex : bool then FS.unlink pt else ret ())).
Proof.
  intros Hatomic s.
  unfold mbind at 1, M_bind at 1, bind at 1.
  unfold ext_write, FS.write, with_fs, mbind at 1, M_bind at 1, bind at 1.
  destruct o as [[|] [|]]; simpl in *.
  - specialize (Hatomic eq_refl). discriminate.
  - left. apply finally_unlinks.
  - right. reflexivity.
  - left. apply finally_unlinks.
Qed.

Lemma keeps_ultralytics checkpoint mi :
  respects (keeps pt)
    (ModelConverter._strategy_ultralytics_export
       ext input output quantize checkpoint mi).
Proof.
  unfold ModelConverter._strategy_ultralytics_export.
  repeat (intros;
          first [ apply keeps_save_then_finally; apply save_atomic
                | keeps_step ]).
Qed.

Lemma keeps_try_strategies strategies checkpoint mi :
  Forall (λ ns : string * strategy, respects (keeps pt) (ns.2 checkpoint mi))
         strategies →
  ∀ i, respects (keeps pt)
         (ModelConverter.try_strategies i strategies checkpoint mi).
Proof.
  induction 1 as [|[name strat] rest Hs _ IH]; intros i; simpl.
  - keeps_auto.
  - unfold emit. keeps_auto; intros; first [exact Hs | apply IH].
Qed.

Lemma keeps_convert_yolov7_checkpoint :
  respects (keeps pt)
    (ModelConverter._convert_yolov7_checkpoint ext input output quantize).
Proof.
  unfold ModelConverter._convert_yolov7_checkpoint,
    ModelConverter._convert_yolov7_alternative.
  keeps_auto; try apply keeps_generate_yolov7.
  apply keeps_try_strategies. unfold ModelConverter.conversion_strategies.
  repeat apply List.Forall_cons; simpl; try apply List.Forall_nil.
  - apply keeps_ultralytics.
  - unfold ModelConverter._strategy_direct_onnx_export. keeps_auto.
  - unfold ModelConverter._strategy_manual_reconstruction. keeps_auto.
  - apply keeps_fallback.
Qed.

Lemma keeps_convert_pytorch :
  respects (keeps pt)
    (ModelConverter._convert_pytorch ext input output quantize).
Proof.
  unfold ModelConverter._convert_pytorch.
  keeps_auto. apply keeps_write, exported_ne.
Qed.

Lemma keeps_convert :
  respects (keeps pt) (ModelConverter.convert ext input output quantize).
Proof.
  unfold ModelConverter.convert, ModelConverter.cleanup, get_temp_onnx_path.
  repeat (intros;
          first [ apply respects_mkdir, keeps_refl
                | apply keeps_convert_pytorch
                | apply keeps_convert_yolov7_checkpoint
                | keeps_step ]).
Qed.

(** X6.  When [torch.save] never leaves a file behind on raising, an
    interim checkpoint [temp_model.pt] that was not in the output directory
    before [convert] is not there after it, whatever the run did. *)
Lemma interim_checkpoint_removed files :
  files !! pt = None →
  fs (ModelConverter.convert ext input output quantize (init files)).2 !! pt
  = None.
Proof.
  intros Hfresh. destruct (keeps_convert (init files)) as [H | H].
  - exact H.
  - rewrite H. exact Hfresh.
Qed.

End InterimCheckpoint.

(** ** Further properties of [convert_model.py] *)

(** *** Exits of [convert] *)

Lemma convert_returns ext input output quantize s :
  ∃ b s',
    ModelConverter.convert ext input output quantize s = (Return b, s').
Proof.
  unfold ModelConverter.convert, try_finally.
  match goal with
  | |- context [try_except ?body ?h s] =>
      assert (∃ b s1, try_except body h s = (Return b, s1)) as (b & s1 & ->)
  end.
  { unfold try_except.
    match goal with
    | |- context [let (_, _) := ?m s in _] => destruct (m s) as [[b|e] s1]
    end; [eauto | unfold ret; eauto]. }
  destruct (cleanup_run s1) as (files' & -> & _). eauto.
Qed.

(** X1.  [convert] never raises: whatever the input format, the loaded blob
    and the external collaborators do, the call returns [True] or
    [False]. *)
Theorem convert_never_raises ext input output quantize s :
  ∃ b s',
    ModelConverter.convert ext input output quantize s = (Return b, s').
Proof. apply convert_returns. Qed.

(** X2.  An input whose suffix is none of [.pt], [.ckpt], [.onnx] is
    refused: [convert] returns [False], no strategy is tried and no file is
    created, changed or removed. *)
Theorem unsupported_format_untouched ext input output quantize files :
  Path.suffix input ≠ ".pt" →
  Path.suffix input ≠ ".ckpt" →
  Path.suffix input ≠ ".onnx" →
  ModelConverter.convert ext input output quantize (init files)
  = (Return false, init files).
Proof.
  intros Hpt Hckpt Honnx.
  apply String.eqb_neq in Hpt, Hckpt, Honnx.
  destruct (FS.blocked files output) eqn:Hfree;
    [apply convert_blocked; exact Hfree |].
  rewrite convert_unblocked by exact Hfree.
  rewrite Hpt, Hckpt, Honnx. reflexivity.
Qed.

Lemma unsupported_format_untouched_witness :
  ModelConverter.convert (Sample.ext_ok Sample.unknown_blob)
    ["models"; "weights.h5"] Sample.output false (init Sample.models)
  = (Return false, init Sample.models).
Proof.
  apply (unsupported_format_untouched (Sample.ext_ok Sample.unknown_blob)
           ["models"; "weights.h5"] Sample.output false Sample.models);
    discriminate.
Defined.

(** X3.  A [.pt] input that ultralytics cannot load: the exception reaches
    the handler of [convert], which returns [False]; nothing was written
    and no interim file is tracked. *)
Theorem pytorch_load_failure_untouched ext input output quantize files e :
  Path.suffix input = ".pt" →
  YOLO ext input = Raise e →
  ModelConverter.convert ext input output quantize (init files)
  = (Return false, init files).
Proof.
  intros Hsfx Hload.
  destruct (FS.blocked files output) eqn:Hfree;
    [apply convert_blocked; exact Hfree |].
  rewrite convert_unblocked by exact Hfree.
  unfold ModelConverter._convert_pytorch.
  rewrite Hsfx. simpl String.eqb. cbv iota.
  unfold try_finally, try_except, mbind, M_bind, bind, ret, lift.
  rewrite Hload. reflexivity.
Qed.


Lemma tracked_onnx_removed_witness :
  fs (ModelConverter.convert (Sample.ext_ok Sample.trained_blob)
        Sample.input Sample.output false (init ∅)).2
    !! (Sample.output </> "temp_model.onnx") = None.
Proof.
  apply (tracked_onnx_removed (Sample.ext_ok Sample.trained_blob)
           Sample.input Sample.output false (init ∅)
           (ModelConverter.convert (Sample.ext_ok Sample.trained_blob)
              Sample.input Sample.output false (init ∅)).1).
  - reflexivity.
  - reflexivity.
Defined.

Lemma interim_checkpoint_removed_witness :
  fs (ModelConverter.convert (Sample.ext_ok Sample.trained_blob)
        Sample.input Sample.output false (init ∅)).2
    !! (Sample.output </> "temp_model.pt") = None.
Proof.
  apply (interim_checkpoint_removed (Sample.ext_ok Sample.trained_blob)
           Sample.input Sample.output false).
  - intros v p H. discriminate H.
  - reflexivity.
Defined.

Lemma pytorch_load_failure_untouched_witness :
  ModelConverter.convert Sample.ext_broken Sample.pt_input Sample.pt_output
    false (init Sample.models)
  = (Return false, init Sample.models).
Proof.
  apply (pytorch_load_failure_untouched Sample.ext_broken Sample.pt_input
           Sample.pt_output false Sample.models (ExternalError "YOLO"));
    reflexivity.
Defined.


(** *** Taking a run apart *)

Lemma bind_inv {A B} (m : M A) (k : A → M B) s b s' :
  (m ≫= k) s = (Return b, s') →
  ∃ a s1, m s = (Return a, s1) ∧ k a s1 = (Return b, s').
Proof.
  unfold mbind, M_bind, bind.
  destruct (m s) as [[a|e] s1]; [eauto | discriminate].
Qed.

Lemma try_finally_inv {A} (body : M A) (fin : M ()) s b s' :
  try_finally body fin s = (Return b, s') →
  ∃ s1, body s = (Return b, s1) ∧ fin s1 = (Return (), s').
Proof.
  unfold try_finally. destruct (body s) as [r s1].
  destruct (fin s1) as [[u|e] s2] eqn:Hfin.
  - destruct u. intros [= -> ->]. exists s1. auto.
  - discriminate.
Qed.

Lemma lift_inv {A} (r : result A) s a s' :
  lift r s = (Return a, s') → r = Return a ∧ s' = s.
Proof. unfold lift. intros [= -> ->]. auto. Qed.

(** *** The ONNX step *)


(** *** What [convert] tracks *)

Section Tracks.

Variable t : path.

Lemma tracks_refl s : tracks t s s.
Proof. left. reflexivity. Qed.

Lemma tracks_trans s1 s2 s3 : tracks t s1 s2 → tracks t s2 s3 → tracks t s1 s3.
Proof.
  unfold tracks. intros H1 [H2 | H2]; [rewrite H2; exact H1 | right; exact H2].
Qed.

Lemma tracks_same {A} (m : M A) :
  (∀ s, temp_onnx_path (m s).2 = temp_onnx_path s) → respects (tracks t) m.
Proof. intros H s. left. apply H. Qed.

Lemma tracks_set : respects (tracks t) (set_temp_onnx_path t).
Proof. intros s. right. reflexivity. Qed.

End Tracks.

Ltac tracks_step t :=
  first
    [ apply (respects_ret (tracks t) (tracks_refl t))
    | apply (respects_mret (tracks t) (tracks_refl t))
    | apply (respects_raise (tracks t) (tracks_refl t))
    | apply (respects_lift (tracks t) (tracks_refl t))
    | apply tracks_same; reflexivity
    | apply tracks_set
    | apply (respects_bind (tracks t) (tracks_trans t))
    | apply (respects_try_except (tracks t) (tracks_trans t))
    | apply (respects_try_finally (tracks t) (tracks_trans t))
    | apply (respects_attempt (tracks t))
    | match goal with
      | |- respects _ (if ?b then _ else _) => destruct b
      | |- respects _ (match ?x with _ => _ end) => destruct x
      end ].

Ltac tracks_auto t := repeat (intros; tracks_step t).

(** The only path [convert] ever tracks is [temp_model.onnx] in the output
    directory. *)
Lemma tracks_convert ext input output quantize :
  respects (tracks (output </> "temp_model.onnx"))
    (ModelConverter.convert ext input output quantize).
Proof.
  unfold ModelConverter.convert, ModelConverter.cleanup.
  repeat (intros;
          first [ apply respects_mkdir, tracks_refl
                | tracks_step (output </> "temp_model.onnx") ]).
Qed.

(** *** What a success leaves behind *)

Lemma convert_onnx_run ext input output quantize onnx_path s :
  ∃ files,
    ModelConverter._convert_onnx ext input output quantize onnx_path s
      = (Return (bool_decide (is_Some (files !! (output </> "model.json")))),
         State files (temp_onnx_path s) (log s))
    ∧ (∀ p, p ≠ output </> "model.json" →
            (∀ i n, p ≠ output </> shard_name i n) →
            files !! p = fs s !! p)
    ∧ (is_Some (fs s !! (output </> "model.json")) →
       is_Some (files !! (output </> "model.json")))
    ∧ files !! (output </> "model.json")
      = match tfjs_model
                (tensorflowjs_converter ext
                   (ModelConverter.conversion_args output quantize
                      (default (Path.str input) onnx_path))) with
        | Some c => Some c
        | None => fs s !! (output </> "model.json")
        end.
Proof.
  unfold ModelConverter._convert_onnx, try_except, FS.exists_,
    with_fs, mbind, M_bind, bind, ret. cbv beta iota.
  eexists. split; [reflexivity |]. cbn [fs temp_onnx_path log].
  split; [| split].
  - intros p Hp Hshard. apply lookup_write_tfjs_ne; [exact Hp |].
    intros i. apply Hshard.
  - apply write_tfjs_model_json.
  - apply lookup_write_tfjs_model.
Qed.

Lemma json_dump_inv p v s s' :
  json_dump p v s = (Return (), s') →
  s' = State (<[p := JSON.dumped v]> (fs s)) (temp_onnx_path s) (log s)
  ∧ is_Some (JSON.encode v).
Proof.
  unfold json_dump, FS.write, with_fs, mbind, M_bind, bind, ret, raise.
  destruct (JSON.encode v) as [j|]; [| discriminate].
  intros [= <-]. eauto.
Qed.

Lemma ext_write_inv o p what s s' :
  ext_write o p what s = (Return (), s') →
  raised o = false
  ∧ s' = State (if wrote o then <[p := Raw]> (fs s) else fs s)
               (temp_onnx_path s) (log s).
Proof.
  unfold ext_write, FS.write, with_fs, mbind, M_bind, bind, ret, raise.
  destruct o as [[|] [|]]; simpl; try discriminate; intros [= <-];
    destruct s; auto.
Qed.

(** The descriptor [_generate_classes_json] leaves always parses. *)
Lemma generate_classes_content output model s :
  ∃ j, fs (ModelConverter._generate_classes_json output model s).2
         !! (output </> "classes.json") = Some (Json j)
       ∧ descriptor_ok j.
Proof.
  rewrite generate_classes_run. cbv zeta. cbn [snd fs].
  rewrite lookup_insert_eq, encode_yolov5_config.
  assert (∃ jm, JSON.dumped minimal_config = Json jm ∧ descriptor_ok jm)
    as (jm & Hjm & Hok).
  { unfold JSON.dumped.
    destruct (JSON.encode minimal_config) as [jm|] eqn:E; [| discriminate E].
    exists jm. split; [reflexivity | eapply minimal_document_ok, E]. }
  destruct (JSON.encode (Py.values_if_dict (default (PyList []) (yolo_names model))))
    as [jc|]; simpl.
  - destruct (Py.len (Py.values_if_dict (default (PyList []) (yolo_names model)))).
    + eexists. split; [reflexivity | apply yolov5_document_ok].
    + rewrite Hjm. eauto.
  - rewrite Hjm. eauto.
Qed.

Lemma generate_classes_frame output model s p :
  p ≠ output </> "classes.json" →
  fs (ModelConverter._generate_classes_json output model s).2 !! p = fs s !! p.
Proof.
  intros Hp. rewrite generate_classes_run. cbv zeta. cbn [snd fs].
  apply lookup_insert_ne. congruence.
Qed.

Lemma generate_yolov7_frame output mi s p :
  p ≠ output </> "classes.json" →
  fs (ModelConverter._generate_yolov7_classes_json output mi s).2 !! p
  = fs s !! p.
Proof.
  intros Hp. rewrite generate_yolov7_run. cbn [snd fs].
  apply lookup_insert_ne. congruence.
Qed.

Section Success.

Variable ext : externals.
Variables input output : path.
Variable quantize : bool.

Let model_json : path := output </> "model.json".
Let classes_json : path := output </> "classes.json".

Lemma pytorch_true_run s s' :
  ModelConverter._convert_pytorch ext input output quantize s
    = (Return true, s') →
  is_Some (fs s' !! model_json)
  ∧ ∃ j, fs s' !! classes_json = Some (Json j) ∧ descriptor_ok j.
Proof.
  unfold ModelConverter._convert_pytorch. intros H.
  apply bind_inv in H as (model & s1 & _ & H).
  apply bind_inv in H as ([] & s2 & _ & H).
  apply bind_inv in H as ([] & s3 & _ & H).
  apply bind_inv in H as (ex & s4 & _ & H).
  apply bind_inv in H as ([] & s5 & _ & H).
  apply bind_inv in H as (success & s6 & Honnx & H).
  apply bind_inv in H as ([] & s7 & Hgen & H).
  unfold ret in H. inversion H; subst success s7. clear H.
  destruct (convert_onnx_run ext input output quantize
              (Some (Path.str (output </> "temp_model.onnx"))) s5)
    as (files & Hrun & _ & _ & _).
  rewrite Hrun in Honnx. inversion Honnx as [[Hb Hs6]]. clear Honnx.
  apply bool_decide_eq_true in Hb.
  pose proof (generate_classes_content output model s6) as (j & Hj & Hok).
  pose proof (generate_classes_frame output model s6 model_json) as Hframe.
  rewrite Hgen in Hj, Hframe. cbn [snd] in Hj, Hframe.
  split; [| eauto].
  rewrite Hframe.
  - subst s6. exact Hb.
  - intros Heq. apply path_div_inj in Heq. discriminate.
Qed.

End Success.

Section StrategySuccess.

Variable ext : externals.
Variables input output : path.
Variable quantize : bool.

Let model_json : path := output </> "model.json".
Let pt : path := output </> "temp_model.pt".

Lemma unlink_interim_frame s s' p :
  (ex ← FS.exists_ pt; if ex : bool then FS.unlink pt else ret ()) s
    = (Return (), s') →
  p ≠ pt → fs s' !! p = fs s !! p.
Proof.
  unfold FS.exists_, FS.unlink, with_fs, mbind, M_bind, bind, ret.
  destruct (bool_decide (is_Some (fs s !! pt))); intros [= <-] Hp; simpl.
  - apply lookup_delete_ne. congruence.
  - reflexivity.
Qed.

Lemma ultralytics_true_run checkpoint mi s s' :
  ModelConverter._strategy_ultralytics_export
    ext input output quantize checkpoint mi s = (Return true, s') →
  is_Some (fs s' !! model_json).
Proof.
  unfold ModelConverter._strategy_ultralytics_export. cbv zeta. intros H.
  apply bind_inv in H as (found & s1 & _ & H).
  apply bind_inv in H as ([] & s2 & _ & H).
  apply bind_inv in H as (epoch & s3 & _ & H).
  apply bind_inv in H as (names & s4 & _ & H).
  apply bind_inv in H as ([] & s5 & _ & H).
  apply try_finally_inv in H as (s6 & H & Hfin).
  apply bind_inv in H as (model & s7 & _ & H).
  apply bind_inv in H as ([] & s8 & _ & H).
  apply bind_inv in H as (imgsz & s9 & _ & H).
  apply bind_inv in H as ([] & s10 & _ & H).
  apply bind_inv in H as (ex & s11 & _ & H).
  destruct ex; [| discriminate H].
  apply bind_inv in H as ([] & s12 & _ & H).
  apply bind_inv in H as (success & s13 & Honnx & H).
  apply bind_inv in H as ([] & s14 & Hgen & H).
  unfold ret in H. inversion H; subst success s14. clear H.
  destruct (convert_onnx_run ext input output quantize
              (Some (Path.str (output </> "temp_model.onnx"))) s12)
    as (files & Hrun & _ & _ & _).
  rewrite Hrun in Honnx. inversion Honnx as [[Hb Hs13]]. clear Honnx.
  apply bool_decide_eq_true in Hb.
  pose proof (generate_yolov7_frame output mi s13 model_json) as Hframe.
  rewrite Hgen in Hframe. cbn [snd] in Hframe.
  rewrite (unlink_interim_frame _ _ model_json Hfin), Hframe.
  - subst s13. exact Hb.
  - intros Heq. apply path_div_inj in Heq. discriminate.
  - intros Heq. apply path_div_inj in Heq. discriminate.
Qed.

Lemma fallback_true_run checkpoint mi s s' :
  ModelConverter._strategy_fallback_conversion output checkpoint mi s
    = (Return true, s') →
  fs s' !! model_json = Some (JSON.dumped placeholder_model).
Proof.
  unfold ModelConverter._strategy_fallback_conversion. cbv zeta. intros H.
  apply bind_inv in H as (has_epoch & s1 & _ & H).
  apply bind_inv in H as (enhanced1 & s2 & _ & H).
  apply bind_inv in H as (has_fit & s3 & _ & H).
  apply bind_inv in H as (enhanced2 & s4 & _ & H).
  apply bind_inv in H as (found & s5 & _ & H).
  apply bind_inv in H as ([] & s6 & _ & H).
  apply bind_inv in H as ([] & s7 & Hdump & H).
  unfold ret in H. inversion H; subst s7. clear H.
  apply json_dump_inv in Hdump as [-> _]. simpl. apply lookup_insert_eq.
Qed.

(** A pass of the loop that hands back [True] ends with a strategy of the
    list that returned [True]; afterwards only the log grew. *)
Lemma try_strategies_success strategies checkpoint mi :
  ∀ i s s',
    ModelConverter.try_strategies i strategies checkpoint mi s
      = (Return true, s') →
    ∃ ns s0 s1,
      ns ∈ strategies
      ∧ ns.2 checkpoint mi s0 = (Return true, s1)
      ∧ fs s' = fs s1.
Proof.
  induction strategies as [|[name strat] rest IH]; intros i s s' H.
  - discriminate H.
  - simpl in H. unfold mbind, M_bind, bind, attempt, emit, ret in H.
    cbv beta iota in H.
    match type of H with
    | context [strat checkpoint mi ?s0] =>
        destruct (strat checkpoint mi s0) as [[[|]|e] s1] eqn:Hs
    end.
    + inversion H; subst. eexists (name, strat), _, s1.
      split; [apply list_elem_of_here |]. split; [exact Hs | reflexivity].
    + destruct (IH _ _ _ H) as (ns & sa & sb & Hin & Hrun & Hfs).
      exists ns, sa, sb. split; [apply list_elem_of_further, Hin | auto].
    + destruct (IH _ _ _ H) as (ns & sa & sb & Hin & Hrun & Hfs).
      exists ns, sa, sb. split; [apply list_elem_of_further, Hin | auto].
Qed.

Lemma checkpoint_true_run s s' :
  ModelConverter._convert_yolov7_checkpoint ext input output quantize s
    = (Return true, s') →
  is_Some (fs s' !! model_json).
Proof.
  unfold ModelConverter._convert_yolov7_checkpoint, try_except.
  match goal with
  | |- context [let (_, _) := ?m s in _] =>
      destruct (m s) as [[b|e] s1] eqn:Hbody
  end.
  2:{ destruct (alternative_run ext input output s1) as (s2 & -> & _).
      discriminate. }
  intros [= -> ->].
  apply bind_inv in Hbody as (checkpoint & s2 & _ & H).
  apply bind_inv in H as (mi & s3 & _ & H).
  apply bind_inv in H as (done & s4 & Hchain & H).
  destruct done.
  2:{ apply bind_inv in H as ([] & s5 & _ & H). discriminate H. }
  unfold ret in H. inversion H; subst s4. clear H.
  apply try_strategies_success in Hchain
    as ([name strat] & s0 & sa & Hin & Hrun & ->).
  unfold ModelConverter.conversion_strategies in Hin. simpl in Hrun.
  repeat (apply elem_of_cons in Hin as [Hin | Hin]);
    [ | | | | inversion Hin ]; inversion Hin; subst name strat; clear Hin.
  - eapply ultralytics_true_run, Hrun.
  - discriminate Hrun.
  - discriminate Hrun.
  - rewrite (fallback_true_run _ _ _ _ Hrun). eauto.
Qed.

End StrategySuccess.

Lemma convert_true_model_json ext input output quantize files s' :
  ModelConverter.convert ext input output quantize (init files)
    = (Return true, s') →
  is_Some (fs s' !! (output </> "model.json")).
Proof.
  intros Hconv.
  pose proof (tracks_convert ext input output quantize (init files)) as Htr.
  rewrite Hconv in Htr. unfold tracks in Htr. cbn [snd] in Htr.
  unfold ModelConverter.convert in Hconv.
  apply try_finally_inv in Hconv as (s1 & Hbody & Hclean).
  destruct (cleanup_run s1) as (files' & Hrun & _ & Hother).
  rewrite Hrun in Hclean. inversion Hclean; subst s'. clear Hclean Hrun.
  cbn [fs temp_onnx_path init] in *.
  rewrite Hother.
  2:{ destruct Htr as [-> | ->]; [discriminate |].
      intros [= Heq]. apply path_div_inj in Heq. discriminate. }
  clear Htr Hother files'.
  unfold try_except in Hbody.
  match type of Hbody with
  | context [let (_, _) := ?m (init files) in _] =>
      destruct (m (init files)) as [[b|e] s2] eqn:Hinner
  end; [| discriminate Hbody].
  inversion Hbody; subst b s2. clear Hbody.
  apply bind_inv in Hinner as ([] & s0 & Hmk & H).
  rewrite mkdir_output_run in Hmk.
  destruct (FS.blocked _ _); [discriminate Hmk |]. inversion Hmk; subst s0.
  destruct (String.eqb (Path.suffix input) ".pt");
    [eapply pytorch_true_run, H |].
  destruct (String.eqb (Path.suffix input) ".ckpt");
    [eapply checkpoint_true_run, H |].
  destruct (String.eqb (Path.suffix input) ".onnx"); [| discriminate H].
  destruct (convert_onnx_run ext input output quantize None (init files))
    as (files1 & Hrun & _ & _ & _).
  rewrite Hrun in H. injection H as Hb Hs.
  apply bool_decide_eq_true in Hb. subst s1. exact Hb.
Qed.

(** X8.  Whatever the input format, when [convert] returns [True] the
    output directory holds a [model.json] (the converted graph, the
    placeholder of the fallback, or one that was there before). *)
Theorem success_leaves_model_json ext input output quantize files s' :
  ModelConverter.convert ext input output quantize (init files)
    = (Return true, s') →
  is_Some (fs s' !! (output </> "model.json")).
Proof. apply convert_true_model_json. Qed.

Lemma success_leaves_model_json_witness :
  is_Some
    (fs (ModelConverter.convert (Sample.ext_ok Sample.unknown_blob)
           Sample.input Sample.output false (init ∅)).2
       !! (Sample.output </> "model.json")).
Proof.
  apply (success_leaves_model_json (Sample.ext_ok Sample.unknown_blob)
           Sample.input Sample.output false ∅).
  reflexivity.
Defined.

(** X9.  A [.pt] conversion that returns [True] always leaves a
    [classes.json] that parses, with a ['classes'] member and both
    thresholds in [0, 1]: when the class names of the model cannot be
    written, the minimal descriptor takes their place. *)
Theorem pytorch_success_descriptor ext input output quantize files s' :
  Path.suffix input = ".pt" →
  ModelConverter.convert ext input output quantize (init files)
    = (Return true, s') →
  ∃ j, fs s' !! (output </> "classes.json") = Some (Json j)
       ∧ descriptor_ok j.
Proof.
  intros Hsfx Hconv.
  pose proof (tracks_convert ext input output quantize (init files)) as Htr.
  rewrite Hconv in Htr. unfold tracks in Htr. cbn [snd] in Htr.
  unfold ModelConverter.convert in Hconv.
  apply try_finally_inv in Hconv as (s1 & Hbody & Hclean).
  destruct (cleanup_run s1) as (files' & Hrun & _ & Hother).
  rewrite Hrun in Hclean. inversion Hclean; subst s'. clear Hclean Hrun.
  cbn [fs temp_onnx_path init] in *.
  rewrite Hother.
  2:{ destruct Htr as [-> | ->]; [discriminate |].
      intros [= Heq]. apply path_div_inj in Heq. discriminate. }
  unfold try_except in Hbody.
  match type of Hbody with
  | context [let (_, _) := ?m (init files) in _] =>
      destruct (m (init files)) as [[b|e] s2] eqn:Hinner
  end; [| discriminate Hbody].
  inversion Hbody; subst b s2. clear Hbody.
  apply bind_inv in Hinner as ([] & s0 & Hmk & H).
  rewrite mkdir_output_run in Hmk.
  destruct (FS.blocked _ _); [discriminate Hmk |]. inversion Hmk; subst s0.
  rewrite Hsfx in H. simpl String.eqb in H. cbv iota in H.
  eapply pytorch_true_run, H.
Qed.

Lemma pytorch_success_descriptor_witness :
  ∃ j, fs (ModelConverter.convert (Sample.ext_ok Sample.unknown_blob)
             Sample.pt_input Sample.pt_output false (init ∅)).2
         !! (Sample.pt_output </> "classes.json") = Some (Json j)
       ∧ descriptor_ok j.
Proof.
  apply (pytorch_success_descriptor (Sample.ext_ok Sample.unknown_blob)
           Sample.pt_input Sample.pt_output false ∅);
    reflexivity.
Defined.

(** *** The fallback, in full *)














(** *** The standard export, when every collaborator works *)

Lemma with_suffix_interim (p : path) :
  Path.with_suffix (p </> "temp_model.pt") ".onnx" = p </> "temp_model.onnx".
Proof.
  unfold Path.with_suffix, Path.stem, Path.name, Path.parent, Path.div.
  rewrite removelast_last, last_last. reflexivity.
Qed.


Section StandardExport.

Variable ext : externals.
Variables input output : path.
Variable quantize : bool.
Variable kvs : list (pykey * pyval).
Variables (key : string) (weights : pyval).
Variable model : yolo_model.
Variable graph : json.

Let pt : path := output </> "temp_model.pt".
Let model_json : path := output </> "model.json".
Let classes_json : path := output </> "classes.json".

Hypothesis found_weights :
  first_present ["model"; "ema"; "state_dict"] (PyDict kvs)
  = Return (Some (key, weights)).
Hypothesis weights_not_none : weights ≠ PyNone.
Hypothesis save_works : ∀ v, torch_save ext v pt = Outcome true false.
Hypothesis yolo_loads : YOLO ext pt = Return model.
Hypothesis export_works : ∀ n, yolo_export model n = Outcome true false.
Hypothesis converter_works :
  ∀ args, tfjs_model (tensorflowjs_converter ext args) = Some (Json graph).




End StandardExport.


(** *** The file beside a [.pt] input *)





(** *** The command line *)

(** X17.  The exit status of [main] of [convert_model.py], on a command
    line [parse_args] accepted.  It is 0 or 1; it is 0 exactly when the
    input path exists, as a file or as a directory, and [convert] returned
    [True], whether or not validation was asked for; with status 0 the
    output directory holds a [model.json]; and an input that does not exist
    leaves the files as they were. *)
Theorem main_exit_status ext args files code files' :
  main ext args files = (code, files') →
  (code = 0%Z ∨ code = 1%Z)
  ∧ (code = 0%Z ↔
       FS.path_exists files (arg_input args) = true
       ∧ (ModelConverter.convert ext (arg_input args) (arg_output args)
            (arg_quantize args) (init files)).1 = Return true)
  ∧ (code = 0%Z → is_Some (files' !! (arg_output args </> "model.json")))
  ∧ (FS.path_exists files (arg_input args) = false → files' = files).
Proof.
  unfold main. intros H.
  destruct (FS.path_exists files (arg_input args)) eqn:Hin; cbn [negb] in H.
  - destruct (ModelConverter.convert ext (arg_input args) (arg_output args)
                (arg_quantize args) (init files)) as [[[|]|e] s1] eqn:Hrun;
      injection H as <- <-; cbn [fst].
    + split; [auto|]. split; [tauto|]. split; [| discriminate].
      intros _. eapply convert_true_model_json, Hrun.
    + split; [auto|]. split; [split; [discriminate | intros [_ ?]; discriminate]|].
      split; discriminate.
    + split; [auto|]. split; [split; [discriminate | intros [_ ?]; discriminate]|].
      split; discriminate.
  - injection H as <- <-.
    split; [auto|]. split; [split; [discriminate | intros [? _]; discriminate]|].
    split; [discriminate | reflexivity].
Qed.

(** *** The export helper *)

(** X18.  [_export_yolov7_to_onnx] never raises and prints nothing to the
    strategy log.  When it returns [True] the interim path
    [temp_model.onnx] is recorded in [self.temp_onnx_path] and names a
    file, and the exported file beside the model is gone; when the model
    cannot be loaded it returns [False] and changes nothing. *)
Theorem export_to_onnx_outcome ext output model_path mi s :
  ∃ b s',
    ModelConverter._export_yolov7_to_onnx ext output model_path mi s = (Return b, s')
    ∧ log s' = log s
    ∧ (b = true →
         temp_onnx_path s' = Some (output </> "temp_model.onnx")
         ∧ is_Some (fs s' !! (output </> "temp_model.onnx"))
         ∧ (Path.with_suffix model_path ".onnx" ≠ output </> "temp_model.onnx" →
              fs s' !! Path.with_suffix model_path ".onnx" = None))
    ∧ (∀ e, YOLO ext model_path = Raise e → b = false ∧ s' = s).
Proof.
  unfold ModelConverter._export_yolov7_to_onnx, try_except, mbind, M_bind, bind, lift.
  destruct (YOLO ext model_path) as [model|e0].
  2:{ exists false, s. split; [reflexivity|]. split; [reflexivity|].
      split; [discriminate|]. auto. }
  unfold set_temp_onnx_path. cbv beta iota.
  destruct (head (input_size mi)) as [imgsz|]; cbn [from_option].
  2:{ eexists false, _. split; [reflexivity|]. split; [reflexivity|].
      split; [discriminate | intros e; discriminate]. }
  unfold ext_write, FS.write, with_fs, mbind, M_bind, bind, ret, raise, FS.exists_,
    FS.rename, FS.rename_fs.
  destruct (wrote (yolo_export model imgsz)), (raised (yolo_export model imgsz));
    cbv beta iota; cbn [fs temp_onnx_path log].
  - eexists false, _. split; [reflexivity|]. split; [reflexivity|].
    split; [discriminate | intros e; discriminate].
  - rewrite lookup_insert_eq.
    rewrite bool_decide_eq_true_2 by eauto. cbv beta iota. cbn [fs temp_onnx_path log].
    unfold with_fs. cbv beta iota. cbn [fs temp_onnx_path log].
    rewrite lookup_insert_eq.
    eexists true, _. split; [reflexivity|]. split; [reflexivity|].
    split; [| intros e; discriminate]. intros _. cbn [fs temp_onnx_path log].
    split; [reflexivity|]. split; [rewrite lookup_insert_eq; eauto|].
    intros Hne. rewrite lookup_insert_ne by (intros Heq; apply Hne; symmetry; exact Heq).
    rewrite lookup_delete_eq. reflexivity.
  - eexists false, _. split; [reflexivity|]. split; [reflexivity|].
    split; [discriminate | intros e; discriminate].
  - destruct (fs s !! Path.with_suffix model_path ".onnx") as [c|] eqn:Hex.
    + rewrite bool_decide_eq_true_2 by eauto.
      unfold with_fs. cbv beta iota. cbn [fs temp_onnx_path log].
      rewrite Hex.
      eexists true, _. split; [reflexivity|]. split; [reflexivity|].
      split; [| intros e; discriminate]. intros _. cbn [fs temp_onnx_path log].
      split; [reflexivity|]. split; [rewrite lookup_insert_eq; eauto|].
      intros Hne. rewrite lookup_insert_ne by (intros Heq; apply Hne; symmetry; exact Heq).
      rewrite lookup_delete_eq. reflexivity.
    + rewrite bool_decide_eq_false_2 by (intros [? ?]; discriminate).
      eexists false, _. split; [reflexivity|]. split; [reflexivity|].
      split; [discriminate | intros e; discriminate].
Qed.

(** ** Further properties of [batch_convert.py] *)

(** X14.  Batch scan and converter agree on a checkpoint.  For a [.ckpt]
    file the type the scan assigns is [yolov7] for the base variant and
    [yolov7-<variant>] otherwise, with the variant the converter extracts
    from the same file name; the name is never read as another family. *)
Theorem checkpoint_type_matches_variant input checkpoint mi :
  Path.suffix input = ".ckpt" →
  ModelConverter._extract_yolov7_info input checkpoint = Return mi →
  BatchConverter.determine_model_type input
  = (if String.eqb (variant mi) "base" then "yolov7"
     else "yolov7-" +:+ variant mi)
  ∧ variant mi ∈ ["tiny"; "x"; "e6"; "base"].
Proof.
  intros Hsfx.
  unfold ModelConverter._extract_yolov7_info, BatchConverter.determine_model_type.
  rewrite Hsfx. rewrite orb_true_r.
  destruct (Py.contains "names" checkpoint) as [b|]; simpl; [| discriminate].
  destruct (if b then _ else _) as [c|]; simpl; [| discriminate].
  intros [= <-].
  destruct (Str.contains "tiny" _); [split; [reflexivity | set_solver] |].
  destruct (Str.contains "x" _); [split; [reflexivity | set_solver] |].
  destruct (Str.contains "e6" _); split; first [reflexivity | set_solver].
Qed.

(** X15.  The tier of a scanned model: [fast] for [yolov7-tiny],
    [balanced] for [unknown], [accurate] for every other type the scan
    assigns.  [premium] is never reached: every other type contains the
    letter l of yolo, which the test for [accurate] accepts first. *)
Theorem tier_of_scanned_type p :
  BatchConverter.get_performance_tier
    (PyStr (BatchConverter.determine_model_type p))
  = Return
      (if String.eqb (BatchConverter.determine_model_type p) "yolov7-tiny"
       then "fast"
       else if String.eqb (BatchConverter.determine_model_type p) "unknown"
            then "balanced"
       else "accurate").
Proof.
  unfold BatchConverter.determine_model_type.
  repeat match goal with
         | |- context [if ?b then _ else _] =>
             lazymatch b with
             | String.eqb _ _ => fail
             | _ => destruct b
             end
         end; reflexivity.
Qed.







(** *** One batch conversion *)

Section Batch.
Variable ext : externals.
Variable quantize : bool.
Variable st_size : content → Z.




End Batch.

(** *** The whole batch *)

Section BatchAll.
Variable ext : externals.
Variable quantize : bool.
Variable st_size : content → Z.
Variable conversion_time : path → Q.

Lemma convert_model_record t files model_path ty :
  record_of (model_path, ty)
    (BatchConverter.convert_model ext quantize st_size t files model_path ty).1
  ∧ is_Some (JSON.encode
      (BatchConverter.convert_model ext quantize st_size t files model_path ty).1).
Proof.
  unfold BatchConverter.convert_model, record_of.
  destruct (ModelConverter.convert _ _ _ _ _) as [[[|]|e] s'];
    [destruct (validate_model _ _)| |];
    (split; [eexists; split; [reflexivity|]; repeat split; eexists; reflexivity
            | eexists; reflexivity]).
Qed.

Lemma convert_each_records models files :
  Forall2 record_of models
    (BatchConverter.convert_each ext quantize st_size conversion_time models files).1
  ∧ is_Some (mapM JSON.encode
      (BatchConverter.convert_each ext quantize st_size conversion_time models files).1).
Proof.
  revert files. induction models as [|[p ty] rest IH]; intros files.
  - split; [constructor | eexists; reflexivity].
  - cbn [BatchConverter.convert_each].
    pose proof (convert_model_record (conversion_time p) files p ty) as [Hrec Henc].
    destruct (BatchConverter.convert_model _ _ _ _ _ _ _) as [r files1].
    specialize (IH files1).
    destruct (BatchConverter.convert_each _ _ _ _ _ _) as [rs files2].
    cbn [fst] in *. destruct IH as [IH1 [js IH2]]. destruct Henc as [j Henc].
    split; [constructor; assumption|].
    cbn [mapM]. rewrite Henc, IH2. eexists; reflexivity.
Qed.

(** X21.  [convert_all] never raises and keeps one record per scanned
    model, in scan order, each naming the model file and its type.  With
    nothing to convert the files stay as they are; otherwise
    [conversion_results.json] in the models directory is a well-formed
    document holding the timestamp, the quantization flag and the encoded
    records. *)
Theorem convert_all_records_every_model timestamp models_dir files :
  ∃ results files',
    BatchConverter.convert_all ext quantize st_size conversion_time timestamp
      models_dir files = (Return results, files')
    ∧ Forall2 record_of (BatchConverter.scan_for_models files models_dir) results
    ∧ (BatchConverter.scan_for_models files models_dir = [] → files' = files)
    ∧ (BatchConverter.scan_for_models files models_dir ≠ [] →
         ∃ js, mapM JSON.encode results = Some js
           ∧ files' !! (models_dir </> "conversion_results.json")
             = Some (Json (JObj [("timestamp", JStr timestamp);
                                 ("quantized", JBool quantize);
                                 ("results", JArr js)]))).
Proof.
  unfold BatchConverter.convert_all.
  destruct (BatchConverter.scan_for_models files models_dir) as [|m models] eqn:Hscan.
  - exists [], files. split; [reflexivity|]. split; [constructor|].
    split; [reflexivity | intros Hne; by destruct Hne].
  - pose proof (convert_each_records (m :: models) files) as [Hrec [js Henc]].
    destruct (BatchConverter.convert_each _ _ _ _ _ _) as [results files1].
    cbn [fst] in *.
    unfold BatchConverter.save_results, JSON.dumped.
    assert (Hdoc : JSON.encode
              (PyDict [(KStr "timestamp", PyStr timestamp);
                       (KStr "quantized", PyBool quantize);
                       (KStr "results", PyList results)])
            = Some (JObj [("timestamp", JStr timestamp);
                          ("quantized", JBool quantize);
                          ("results", JArr js)])).
    { change (JSON.encode (PyDict ?kvs)) with
        (JObj <$>
           (fix go (l : list (pykey * pyval)) : option (list (string * json)) :=
              match l with
              | [] => Some []
              | (k, x) :: l' =>
                  match JSON.key_name k, JSON.encode x, go l' with
                  | Some s, Some j, Some js => Some ((s, j) :: js)
                  | _, _, _ => None
                  end
              end) kvs).
      cbn [JSON.key_name]. rewrite encode_list, Henc. reflexivity. }
    rewrite Hdoc. eexists _, _. split; [reflexivity|].
    split; [exact Hrec|]. split; [discriminate|].
    intros _. exists js. split; [exact Henc|]. apply lookup_insert_eq.
Qed.

End BatchAll.

(** *** The model index *)

Lemma split_nonempty c s : Str.split c s ≠ [].
Proof.
  destruct s as [|d s]; simpl; [discriminate |].
  destruct (Ascii.eqb d c); [discriminate |].
  destruct (Str.split c s); discriminate.
Qed.

Lemma split_app c a b :
  Str.split c (a +:+ String c b) = Str.split c a ++ Str.split c b.
Proof.
  induction a as [|d a IH]; simpl.
  - rewrite Ascii.eqb_refl. reflexivity.
  - destruct (Ascii.eqb d c); [rewrite IH; reflexivity |].
    rewrite IH. pose proof (split_nonempty c a) as Hne.
    destruct (Str.split c a) as [|x xs]; [contradiction | reflexivity].
Qed.

Lemma split_without_separator x :
  Str.contains "/" x = false → Str.split "/" x = [x].
Proof.
  induction x as [|d x IH]; [reflexivity |].
  cbn [Str.contains Str.split]. intros H.
  apply orb_false_iff in H as [Hp Hc].
  destruct (Ascii.eqb d "/") eqn:Hd.
  - apply Ascii.eqb_eq in Hd. subst d. simpl in Hp.
    destruct x; discriminate Hp.
  - rewrite (IH Hc). reflexivity.
Qed.

Lemma split_str_last p x :
  Str.contains "/" x = false →
  ∃ pre, Str.split "/" (Path.str (p ++ [x])) = pre ++ [x].
Proof.
  intros Hx. unfold Path.str. induction p as [|y p [pre IH]].
  - exists []. simpl. apply split_without_separator, Hx.
  - exists (Str.split "/" y ++ pre).
    change ((y :: p) ++ [x]) with (y :: (p ++ [x])).
    cbn [Str.join]. destruct (p ++ [x]) as [|z l] eqn:Hl.
    { destruct p; discriminate Hl. }
    change (y +:+ "/" +:+ Str.join "/" (z :: l))
      with (y +:+ String "/" (Str.join "/" (z :: l))).
    rewrite split_app, IH, app_assoc. reflexivity.
Qed.

Lemma name_of_str_str p x :
  proper_name x = true → Path.name (Path.of_str (Path.str (p ++ [x]))) = x.
Proof.
  unfold proper_name. intros H. apply andb_true_iff in H as [Hk Hs].
  apply negb_true_iff in Hs.
  destruct (split_str_last p x Hs) as [pre Hpre].
  unfold Path.of_str, Path.name. rewrite Hpre, List.filter_app.
  cbn [List.filter]. rewrite Hk. apply last_last.
Qed.

Lemma tier_of_string t :
  ∃ tier, BatchConverter.get_performance_tier (PyStr t) = Return tier
          ∧ tier ∈ tiers.
Proof.
  unfold BatchConverter.get_performance_tier, tiers. cbn [Py.contains].
  unfold mbind, result_bind, rbind.
  destruct (Str.contains "tiny" t);
    [eexists; split; [reflexivity | apply list_elem_of_here] |].
  destruct (Str.contains "x" t);
    [eexists; split;
       [reflexivity | apply list_elem_of_further, list_elem_of_here] |].
  destruct (Str.contains "l" t);
    [eexists; split;
       [reflexivity | apply list_elem_of_further, list_elem_of_here] |].
  destruct (Str.contains "e6" t); eexists; (split; [reflexivity |]).
  - do 2 apply list_elem_of_further. apply list_elem_of_here.
  - do 3 apply list_elem_of_further. apply list_elem_of_here.
Qed.

Lemma of_str_proper x : proper_name x = true → Path.of_str x = [x].
Proof.
  unfold proper_name. intros H. apply andb_true_iff in H as [Hk Hs].
  apply negb_true_iff in Hs.
  unfold Path.of_str. rewrite (split_without_separator x Hs).
  cbn [List.filter]. rewrite Hk. reflexivity.
Qed.

Section Index.
Variable ext : externals.
Variable quantize : bool.
Variable st_size : content → Z.

Lemma convert_model_shape t files model_path ty :
  (∃ size,
     (BatchConverter.convert_model ext quantize st_size t files model_path ty).1
     = PyDict [ (KStr "model", PyStr (Path.name model_path));
                (KStr "type", PyStr ty);
                (KStr "status", PyStr "success");
                (KStr "output_dir",
                  PyStr (Path.str (BatchConverter.output_dir model_path)));
                (KStr "size_mb", PyFloat size);
                (KStr "conversion_time", PyFloat t);
                (KStr "quantized", PyBool quantize) ])
  ∨ (∃ st error,
       st ≠ "success"
       ∧ (BatchConverter.convert_model ext quantize st_size t files model_path ty).1
         = PyDict [ (KStr "model", PyStr (Path.name model_path));
                    (KStr "type", PyStr ty);
                    (KStr "status", PyStr st);
                    (KStr "error", PyStr error) ]).
Proof.
  unfold BatchConverter.convert_model.
  destruct (ModelConverter.convert _ _ _ _ _) as [[[|]|e] s'];
    [destruct (validate_model _ _) | |].
  - left. eexists. reflexivity.
  - right. eexists _, _. split; [| reflexivity]. discriminate.
  - right. eexists _, _. split; [| reflexivity]. discriminate.
  - right. eexists _, _. split; [| reflexivity]. discriminate.
Qed.

(** X22.  The index entry of a converted model points into its output
    directory.  For a model whose file name and stem are proper path
    components and whose batch conversion has status [success], the entry
    [generate_model_index] builds has the stem as [id], the file name as
    [name], and [models/<stem>/model.json] and [models/<stem>/classes.json]
    as paths, with the size and quantization flag of the record and the
    tier of its type. *)
Theorem index_entry_names_output_dir t files model_path ty r files' :
  proper_name (Path.name model_path) = true →
  proper_name (Path.stem model_path) = true →
  BatchConverter.convert_model ext quantize st_size t files model_path ty
    = (r, files') →
  BatchConverter.status r = Some "success" →
  ∃ size tier,
    BatchConverter.get_performance_tier (PyStr ty) = Return tier
    ∧ BatchConverter.index_entry r
      = Return
          (PyDict
             [ (KStr "id", PyStr (Path.stem model_path));
               (KStr "name", PyStr (Path.name model_path));
               (KStr "type", PyStr ty);
               (KStr "path",
                 PyStr ("models/" +:+ Path.stem model_path +:+ "/model.json"));
               (KStr "config_path",
                 PyStr ("models/" +:+ Path.stem model_path +:+ "/classes.json"));
               (KStr "size_mb", PyFloat size);
               (KStr "quantized", PyBool quantize);
               (KStr "performance_tier", PyStr tier) ]).
Proof.
  intros Hname Hstem Hrun Hst.
  destruct (convert_model_shape t files model_path ty)
    as [[size Hr] | (st & error & Hne & Hr)];
    rewrite Hrun in Hr; cbn [fst] in Hr; subst r.
  2:{ simpl in Hst. injection Hst as ->. contradiction. }
  destruct (tier_of_string ty) as (tier & Htier & _).
  exists size, tier. split; [exact Htier |].
  unfold BatchConverter.index_entry.
  cbn [Py.getitem Py.dict_lookup Py.key_eqb String.eqb Ascii.eqb Bool.eqb
       BatchConverter.as_path].
  unfold mbind, result_bind, rbind. cbv beta iota.
  rewrite Htier.
  unfold BatchConverter.output_dir, BatchConverter.as_path, Path.div.
  cbv beta iota.
  rewrite (name_of_str_str (Path.parent model_path) _ Hstem).
  rewrite (of_str_proper _ Hname).
  reflexivity.
Qed.

End Index.

Section BatchMain.
Variable ext : externals.
Variable st_size : content → Z.
Variable conversion_time : path → Q.

Lemma convert_model_indexable quantize t files model_path ty :
  indexable
    (BatchConverter.convert_model ext quantize st_size t files model_path ty).1.
Proof.
  destruct (convert_model_shape ext quantize st_size t files model_path ty)
    as [[size ->] | (st & error & Hne & ->)]; split.
  - eexists _, _. split; reflexivity.
  - intros _. destruct (tier_of_string ty) as (tier & Htier & _).
    unfold BatchConverter.index_entry.
    cbn [Py.getitem Py.dict_lookup Py.key_eqb String.eqb Ascii.eqb Bool.eqb].
    unfold mbind, result_bind, rbind, BatchConverter.as_path. cbv beta iota.
    rewrite Htier. eexists _, _. split; reflexivity.
  - eexists _, _. split; reflexivity.
  - unfold succeeded. intros H. apply bool_decide_eq_true in H.
    simpl in H. injection H as ->. contradiction.
Qed.

Lemma convert_each_indexable quantize models files :
  Forall indexable
    (BatchConverter.convert_each ext quantize st_size conversion_time
       models files).1.
Proof.
  revert files. induction models as [|[p ty] rest IH]; intros files.
  - constructor.
  - cbn [BatchConverter.convert_each].
    pose proof (convert_model_indexable quantize (conversion_time p) files p ty)
      as Hr.
    destruct (BatchConverter.convert_model _ _ _ _ _ _ _) as [r files1].
    specialize (IH files1).
    destruct (BatchConverter.convert_each _ _ _ _ _ _) as [rs files2].
    constructor; assumption.
Qed.

Lemma successful_filter results :
  Forall indexable results →
  BatchConverter.successful results = Return (List.filter succeeded results).
Proof.
  induction 1 as [|r rs [(kvs & st & -> & Hst) _] _ IH]; [reflexivity |].
  cbn [BatchConverter.successful List.filter Py.getitem].
  rewrite Hst, IH. unfold mbind, result_bind, rbind. cbv beta iota.
  unfold succeeded, BatchConverter.status. rewrite Hst. cbn [Py.is_str].
  destruct (String.eqb_spec st "success") as [-> | Hne].
  - rewrite bool_decide_eq_true_2 by reflexivity. reflexivity.
  - rewrite bool_decide_eq_false_2 by (intros [= ?]; contradiction).
    reflexivity.
Qed.

Lemma index_entries_encode rs :
  Forall indexable rs →
  Forall (λ r, succeeded r = true) rs →
  ∃ infos js,
    BatchConverter.index_entries rs = Return infos
    ∧ mapM JSON.encode infos = Some js
    ∧ length js = length rs.
Proof.
  induction 1 as [|r rs [_ Hr] _ IH]; intros Hall.
  - exists [], []. repeat split; reflexivity.
  - apply Forall_cons in Hall as [Hs Hall].
    destruct (Hr Hs) as (info & j & Hinfo & Hj).
    destruct (IH Hall) as (infos & js & Hinfos & Hjs & Hlen).
    exists (info :: infos), (j :: js).
    cbn [BatchConverter.index_entries mapM].
    rewrite Hinfo, Hinfos, Hj, Hjs. unfold mbind, result_bind, rbind.
    split; [reflexivity |]. split; [reflexivity |].
    simpl. rewrite Hlen. reflexivity.
Qed.

Lemma generate_index_run timestamp results files :
  Forall indexable results →
  ∃ files',
    BatchConverter.generate_model_index timestamp results files
      = (Return (), files')
    ∧ (if bool_decide (List.filter succeeded results = [])
       then files' = files
       else
         ∃ js,
           length js = length (List.filter succeeded results)
           ∧ files' =
               <[["web"; "models_index.json"] :=
                   Json (JObj
                     [ ("models", JArr js);
                       ("last_updated", JStr timestamp);
                       ("total_models",
                         JInt (Z.of_nat
                                 (length (List.filter succeeded results)))) ])]>
                 files).
Proof.
  intros Hall. unfold BatchConverter.generate_model_index.
  rewrite (successful_filter results Hall).
  assert (Hsub : Forall indexable (List.filter succeeded results)).
  { apply List.Forall_forall. intros r Hin. apply filter_In in Hin as [Hin _].
    rewrite List.Forall_forall in Hall. apply Hall, Hin. }
  assert (Hsucc : Forall (λ r, succeeded r = true) (List.filter succeeded results)).
  { apply List.Forall_forall. intros r Hin. apply filter_In in Hin as [_ Hs].
    exact Hs. }
  destruct (index_entries_encode _ Hsub Hsucc) as (infos & js & Hinfos & Hjs & Hlen).
  destruct (List.filter succeeded results) as [|r rs] eqn:Hf.
  - exists files. split; [reflexivity |].
    rewrite bool_decide_eq_true_2 by reflexivity. reflexivity.
  - rewrite Hinfos.
    assert (Hdoc : JSON.encode
              (PyDict [ (KStr "models", PyList infos);
                        (KStr "last_updated", PyStr timestamp);
                        (KStr "total_models",
                          PyInt (Z.of_nat (length (r :: rs)))) ])
            = Some (JObj [ ("models", JArr js);
                           ("last_updated", JStr timestamp);
                           ("total_models",
                             JInt (Z.of_nat (length (r :: rs)))) ])).
    { change (JSON.encode (PyDict ?kvs)) with
        (JObj <$>
           (fix go (l : list (pykey * pyval)) : option (list (string * json)) :=
              match l with
              | [] => Some []
              | (k, x) :: l' =>
                  match JSON.key_name k, JSON.encode x, go l' with
                  | Some s, Some j, Some js => Some ((s, j) :: js)
                  | _, _, _ => None
                  end
              end) kvs).
      cbn [JSON.key_name]. rewrite encode_list, Hjs. reflexivity. }
    unfold JSON.dumped. rewrite Hdoc.
    eexists. split; [reflexivity |].
    rewrite bool_decide_eq_false_2 by discriminate.
    exists js. split; [exact Hlen | reflexivity].
Qed.

(** X23.  [main] of [batch_convert.py] ends with status 0 whatever the
    conversions did: [convert_all] returns its records, and with
    [--generate-index] and at least one [success] record the file
    [web/models_index.json] is written as a well-formed document with one
    entry per such record and their number as [total_models]; otherwise no
    index is written. *)
Theorem batch_main_exits_zero results_time index_time args files :
  ∃ results files1 files2,
    BatchConverter.convert_all ext (BatchConverter.args_quantize args) st_size
      conversion_time results_time (BatchConverter.args_models_dir args) files
      = (Return results, files1)
    ∧ BatchConverter.main ext st_size conversion_time results_time index_time
        args files = (0%Z, files2)
    ∧ (if BatchConverter.args_generate_index args
          && negb (bool_decide (List.filter succeeded results = []))
       then
         ∃ js,
           length js = length (List.filter succeeded results)
           ∧ files2 =
               <[["web"; "models_index.json"] :=
                   Json (JObj
                     [ ("models", JArr js);
                       ("last_updated", JStr index_time);
                       ("total_models",
                         JInt (Z.of_nat
                                 (length (List.filter succeeded results)))) ])]>
                 files1
       else files2 = files1).
Proof.
  assert (Hall : ∃ results files1,
            BatchConverter.convert_all ext (BatchConverter.args_quantize args)
              st_size conversion_time results_time
              (BatchConverter.args_models_dir args) files
            = (Return results, files1)
            ∧ Forall indexable results).
  { unfold BatchConverter.convert_all.
    destruct (BatchConverter.scan_for_models files _) as [|m models].
    - exists [], files. split; [reflexivity | constructor].
    - pose proof (convert_each_indexable (BatchConverter.args_quantize args)
                    (m :: models) files) as Hidx.
      pose proof (convert_each_records ext (BatchConverter.args_quantize args)
                    st_size conversion_time (m :: models) files) as [_ [js Henc]].
      destruct (BatchConverter.convert_each _ _ _ _ _ _) as [results files1].
      cbn [fst] in *.
      unfold BatchConverter.save_results.
      change (JSON.encode (PyDict ?kvs)) with
        (JObj <$>
           (fix go (l : list (pykey * pyval)) : option (list (string * json)) :=
              match l with
              | [] => Some []
              | (k, x) :: l' =>
                  match JSON.key_name k, JSON.encode x, go l' with
                  | Some s, Some j, Some js => Some ((s, j) :: js)
                  | _, _, _ => None
                  end
              end) kvs).
      cbn [JSON.key_name]. rewrite encode_list, Henc. cbn [fmap option_fmap option_map].
      eexists _, _. split; [reflexivity | exact Hidx]. }
  destruct Hall as (results & files1 & Hrun & Hall).
  exists results, files1.
  unfold BatchConverter.main. rewrite Hrun.
  destruct (generate_index_run index_time results files1 Hall)
    as (files' & Hgen & Hfiles).
  destruct (BatchConverter.args_generate_index args); cbn [andb].
  - rewrite Hgen. exists files'. split; [reflexivity |]. split; [reflexivity |].
    destruct (bool_decide (List.filter succeeded results = [])); exact Hfiles.
  - exists files1. repeat split; reflexivity.
Qed.

End BatchMain.

(** *** The size of an output directory *)

(** X24.  [calculate_model_size] counts exactly the files below the
    directory: adding a file to the file system adds its bytes, in MB, to
    the size of a directory it lies strictly below, and leaves the size of
    every other directory as it was. *)
Theorem size_counts_files_below st_size files model_dir p c :
  files !! p = None →
  (BatchConverter.calculate_model_size st_size (<[p := c]> files) model_dir
   == BatchConverter.calculate_model_size st_size files model_dir
      + (if strictly_below model_dir p then inject_Z (st_size c) / MB else 0))%Q.
Proof.
  intros Hfresh. unfold BatchConverter.calculate_model_size, strictly_below, MB.
  set (f := λ (pc : path * content) (acc : Z),
              if bool_decide (model_dir `prefix_of` pc.1)
                 && negb (bool_decide (pc.1 = model_dir))
              then (acc + st_size pc.2)%Z else acc).
  assert (Hperm : foldr f 0%Z (map_to_list (<[p := c]> files))
                  = f (p, c) (foldr f 0%Z (map_to_list files))).
  { change (f (p, c) (foldr f 0%Z (map_to_list files)))
      with (foldr f 0%Z ((p, c) :: map_to_list files)).
    apply (foldr_permutation (=) f 0%Z).
    - intros j1 a1 j2 a2 b _ _ _. unfold f.
      destruct (_ && _), (_ && _); lia.
    - apply map_to_list_insert, Hfresh. }
  rewrite Hperm. unfold f at 1. cbn [fst snd].
  destruct (bool_decide (model_dir `prefix_of` p) && negb (bool_decide (p = model_dir))).
  - rewrite inject_Z_plus. field. discriminate.
  - ring.
Qed.

(** *** An ONNX input *)






(** *** The footprint of a conversion *)

Section Footprint.

Variable ext : externals.
Variables input output : path.
Variable quantize : bool.

Let F : path → Prop := touched input output.
Let t : path := output </> "temp_model.onnx".

Lemma within_refl s : within F t s s.
Proof. intros H. auto. Qed.

Lemma within_trans s1 s2 s3 :
  within F t s1 s2 → within F t s2 s3 → within F t s1 s3.
Proof.
  intros H1 H2 Hok. destruct (H1 Hok) as [Hok2 Hf1].
  destruct (H2 Hok2) as [Hok3 Hf2]. split; [exact Hok3 |].
  intros p Hp. rewrite (Hf2 p Hp). apply Hf1, Hp.
Qed.

Lemma within_same {A} (m : M A) :
  (∀ s, fs (m s).2 = fs s ∧ temp_onnx_path (m s).2 = temp_onnx_path s) →
  respects (within F t) m.
Proof.
  intros H s Hok. destruct (H s) as [Hfs Htmp]. rewrite Htmp, Hfs. auto.
Qed.

Lemma within_set : respects (within F t) (set_temp_onnx_path t).
Proof. intros s _. simpl. auto. Qed.

Lemma within_write p c : F p → respects (within F t) (FS.write p c).
Proof.
  intros Hp s Hok. unfold FS.write, with_fs. simpl. split; [exact Hok |].
  intros q Hq. apply lookup_insert_ne. intros ->. contradiction.
Qed.

Lemma within_unlink p : F p → respects (within F t) (FS.unlink p).
Proof.
  intros Hp s Hok. unfold FS.unlink, with_fs. simpl. split; [exact Hok |].
  intros q Hq. apply lookup_delete_ne. intros ->. contradiction.
Qed.

Lemma within_rename src dst :
  F src → F dst → respects (within F t) (FS.rename src dst).
Proof.
  intros Hs Hd s Hok. unfold FS.rename, with_fs, FS.rename_fs. simpl.
  split; [exact Hok |]. intros q Hq.
  destruct (fs s !! src) as [c|]; [| reflexivity].
  rewrite lookup_insert_ne by (intros ->; contradiction).
  apply lookup_delete_ne. intros ->. contradiction.
Qed.

(** The converter command writes [model.json] and weight shards only. *)
Lemma within_tfjs o : respects (within F t) (with_fs (write_tfjs output o)).
Proof.
  intros s Hok. unfold with_fs. cbn [snd fs temp_onnx_path].
  split; [exact Hok |]. intros p Hp. apply lookup_write_tfjs_ne.
  - intros ->. apply Hp. left. apply list_elem_of_here.
  - intros i ->. apply Hp. right. eauto.
Qed.

Lemma within_cleanup : respects (within F t) ModelConverter.cleanup.
Proof.
  intros s Hok.
  destruct (cleanup_run s) as (files & -> & _ & Hkeep). cbn [snd fs temp_onnx_path].
  split; [exact Hok |]. intros p Hp. apply Hkeep.
  destruct Hok as [-> | ->]; [discriminate |].
  intros [= <-]. apply Hp. left. unfold footprint, t.
  do 3 apply list_elem_of_further. apply list_elem_of_here.
Qed.

Lemma interim_in_footprint :
  F (Path.with_suffix (output </> "temp_model.pt") ".onnx").
Proof.
  rewrite with_suffix_interim. left. unfold footprint.
  do 3 apply list_elem_of_further. apply list_elem_of_here.
Qed.

Ltac in_footprint :=
  first
    [ apply interim_in_footprint
    | left; unfold footprint, t;
      repeat first [ apply list_elem_of_here | apply list_elem_of_further ] ].

Ltac within_step :=
  first
    [ match goal with
      | |- respects _ (ModelConverter.try_strategies _ _ _ _) => fail 2
      | |- respects _ (ModelConverter._convert_pytorch _ _ _ _) => fail 2
      | |- respects _ (ModelConverter._convert_yolov7_checkpoint _ _ _ _) =>
          fail 2
      | |- respects _ ModelConverter.cleanup => fail 2
      end
    | apply (respects_ret (within F t) within_refl)
    | apply (respects_mret (within F t) within_refl)
    | apply (respects_raise (within F t) within_refl)
    | apply (respects_lift (within F t) within_refl)
    | apply (respects_mkdir (within F t)), within_refl
    | apply within_tfjs
    | apply within_same; intros; split; reflexivity
    | apply within_set
    | apply within_unlink; in_footprint
    | apply within_write; in_footprint
    | apply within_rename; in_footprint
    | apply (respects_bind (within F t) within_trans)
    | apply (respects_try_except (within F t) within_trans)
    | apply (respects_try_finally (within F t) within_trans)
    | apply (respects_attempt (within F t))
    | match goal with
      | |- respects _ (if ?b then _ else _) => destruct b
      | |- respects _ (match ?x with _ => _ end) => destruct x
      end ].

Ltac within_auto := repeat (intros; within_step).

Lemma within_try_strategies strategies checkpoint mi :
  Forall (λ ns : string * strategy, respects (within F t) (ns.2 checkpoint mi))
         strategies →
  ∀ i, respects (within F t)
         (ModelConverter.try_strategies i strategies checkpoint mi).
Proof.
  induction 1 as [|[name strat] rest Hs _ IH]; intros i; simpl.
  - within_auto.
  - unfold emit. within_auto; intros; first [exact Hs | apply IH].
Qed.

Lemma within_convert_yolov7_checkpoint :
  respects (within F t)
    (ModelConverter._convert_yolov7_checkpoint ext input output quantize).
Proof.
  unfold ModelConverter._convert_yolov7_checkpoint,
    ModelConverter._convert_yolov7_alternative.
  within_auto.
  apply within_try_strategies. unfold ModelConverter.conversion_strategies.
  repeat apply List.Forall_cons; simpl; try apply List.Forall_nil.
  - unfold ModelConverter._strategy_ultralytics_export. within_auto.
  - unfold ModelConverter._strategy_direct_onnx_export. within_auto.
  - unfold ModelConverter._strategy_manual_reconstruction. within_auto.
  - unfold ModelConverter._strategy_fallback_conversion. within_auto.
Qed.

Lemma within_convert_pytorch :
  respects (within F t)
    (ModelConverter._convert_pytorch ext input output quantize).
Proof. unfold ModelConverter._convert_pytorch. within_auto. Qed.

Lemma within_convert :
  respects (within F t) (ModelConverter.convert ext input output quantize).
Proof.
  unfold ModelConverter.convert.
  repeat (intros;
          first [ apply within_cleanup
                | apply within_convert_pytorch
                | apply within_convert_yolov7_checkpoint
                | within_step ]).
Qed.

(** X27.  [convert] stays within its footprint.  Whatever the input and
    the blob are and whatever the collaborators return or raise, the
    converter command writing [model.json] and weight shards only: a file
    that is none of [model.json], [classes.json], [temp_model.pt],
    [temp_model.onnx] in the output directory, no weight shard there, and
    not the [.onnx] sibling of the input is after the run what it was
    before. *)
Theorem convert_stays_in_footprint files p :
  p ∉ footprint input output →
  (∀ i n, p ≠ output </> shard_name i n) →
  fs (ModelConverter.convert ext input output quantize (init files)).2 !! p
  = files !! p.
Proof.
  intros Hp Hshard. destruct (within_convert (init files)) as [_ H].
  - left. reflexivity.
  - apply H. intros [Hin | (i & n & ->)]; [exact (Hp Hin) |].
    exact (Hshard i n eq_refl).
Qed.

End Footprint.

Section BatchFootprint.
Variable ext : externals.
Variable quantize : bool.
Variable st_size : content → Z.
Variable conversion_time : path → Q.

Lemma convert_model_files t files model_path ty :
  (BatchConverter.convert_model ext quantize st_size t files model_path ty).2
  = fs (ModelConverter.convert ext model_path
          (BatchConverter.output_dir model_path) quantize (init files)).2.
Proof.
  unfold BatchConverter.convert_model.
  destruct (ModelConverter.convert _ _ _ _ _) as [[[|]|e] s'];
    [destruct (validate_model _ _) | |]; reflexivity.
Qed.

Lemma convert_each_frame models files p :
  (∀ m, m ∈ models → ¬ touched m.1 (BatchConverter.output_dir m.1) p) →
  (BatchConverter.convert_each ext quantize st_size conversion_time
     models files).2 !! p
  = files !! p.
Proof.
  revert files. induction models as [|[m ty] rest IH]; intros files Hp;
    [reflexivity |].
  cbn [BatchConverter.convert_each].
  pose proof (convert_model_files (conversion_time m) files m ty) as Hfiles.
  destruct (BatchConverter.convert_model _ _ _ _ _ _ _) as [r files1].
  cbn [snd] in Hfiles.
  specialize (IH files1).
  destruct (BatchConverter.convert_each _ _ _ _ _ _) as [rs files2].
  cbn [snd] in *. rewrite IH.
  - subst files1.
    destruct (within_convert ext m (BatchConverter.output_dir m) quantize
                (init files)) as [_ H]; [left; reflexivity |].
    apply H. apply (Hp (m, ty)), list_elem_of_here.
  - intros m' Hin. apply Hp, list_elem_of_further, Hin.
Qed.

(** X28.  A batch run touches nothing but its results file and, for each
    model it scanned, the footprint of that conversion and the weight
    shards in its output directory: every other file is afterwards what it
    was before. *)
Theorem convert_all_stays_in_footprints timestamp models_dir files p :
  p ≠ models_dir </> "conversion_results.json" →
  (∀ m, m ∈ BatchConverter.scan_for_models files models_dir →
        (p ∉ footprint m.1 (BatchConverter.output_dir m.1))
        ∧ (∀ i n, p ≠ BatchConverter.output_dir m.1 </> shard_name i n)) →
  (BatchConverter.convert_all ext quantize st_size conversion_time timestamp
     models_dir files).2 !! p
  = files !! p.
Proof.
  intros Hres Hp. unfold BatchConverter.convert_all.
  destruct (BatchConverter.scan_for_models files models_dir) as [|m models];
    [reflexivity |].
  assert (Hp' : ∀ m', m' ∈ m :: models →
            ¬ touched m'.1 (BatchConverter.output_dir m'.1) p).
  { intros m' Hin [Hf | (i & n & Heq)]; destruct (Hp m' Hin) as [H1 H2].
    - exact (H1 Hf).
    - exact (H2 i n Heq). }
  pose proof (convert_each_frame (m :: models) files p Hp') as Hframe.
  destruct (BatchConverter.convert_each _ _ _ _ _ _) as [results files1].
  cbn [snd] in Hframe.
  unfold BatchConverter.save_results. cbn [snd].
  rewrite lookup_insert_ne by congruence. exact Hframe.
Qed.

End BatchFootprint.

(** *** The properties above, at sample inputs *)


Lemma checkpoint_type_matches_variant_witness :
  BatchConverter.determine_model_type Sample.input = "yolov7-tiny"
  ∧ "tiny" ∈ ["tiny"; "x"; "e6"; "base"].
Proof.
  apply (checkpoint_type_matches_variant Sample.input Sample.trained_blob
           (ModelInfo (PyList [PyStr "crop"; PyStr "weed"]) [640; 640]%Z
                      "yolov7" "tiny" None None));
    reflexivity.
Defined.


Lemma main_exit_status_witness :
  (0 = 0 ∨ 0 = 1)%Z
  ∧ (0%Z = 0%Z ↔
       FS.path_exists Sample.models Sample.input = true
       ∧ (ModelConverter.convert (Sample.ext_ok Sample.trained_blob)
            Sample.input Sample.output false (init Sample.models)).1
         = Return true)
  ∧ (0%Z = 0%Z →
       is_Some ((main (Sample.ext_ok Sample.trained_blob)
                   (CliArgs Sample.input Sample.output false true)
                   Sample.models).2
                !! (Sample.output </> "model.json")))
  ∧ (FS.path_exists Sample.models Sample.input = false →
       (main (Sample.ext_ok Sample.trained_blob)
          (CliArgs Sample.input Sample.output false true) Sample.models).2
       = Sample.models).
Proof.
  apply (main_exit_status (Sample.ext_ok Sample.trained_blob)
           (CliArgs Sample.input Sample.output false true) Sample.models).
  reflexivity.
Defined.



Lemma index_entry_names_output_dir_witness :
  ∃ size tier,
    BatchConverter.get_performance_tier (PyStr "yolov5s") = Return tier
    ∧ BatchConverter.index_entry
        (BatchConverter.convert_model (Sample.ext_ok Sample.trained_blob) false
           (λ _, 1048576%Z) 0.25%Q Sample.models Sample.pt_input "yolov5s").1
      = Return
          (PyDict
             [ (KStr "id", PyStr (Path.stem Sample.pt_input));
               (KStr "name", PyStr (Path.name Sample.pt_input));
               (KStr "type", PyStr "yolov5s");
               (KStr "path",
                 PyStr ("models/" +:+ Path.stem Sample.pt_input +:+ "/model.json"));
               (KStr "config_path",
                 PyStr ("models/" +:+ Path.stem Sample.pt_input
                        +:+ "/classes.json"));
               (KStr "size_mb", PyFloat size);
               (KStr "quantized", PyBool false);
               (KStr "performance_tier", PyStr tier) ]).
Proof.
  apply (index_entry_names_output_dir (Sample.ext_ok Sample.trained_blob) false
           (λ _, 1048576%Z) 0.25%Q Sample.models Sample.pt_input "yolov5s"
           (BatchConverter.convert_model (Sample.ext_ok Sample.trained_blob) false
              (λ _, 1048576%Z) 0.25%Q Sample.models Sample.pt_input "yolov5s").1
           (BatchConverter.convert_model (Sample.ext_ok Sample.trained_blob) false
              (λ _, 1048576%Z) 0.25%Q Sample.models Sample.pt_input "yolov5s").2);
    reflexivity.
Defined.

Lemma size_counts_files_below_witness :
  (BatchConverter.calculate_model_size (λ _, 1048576%Z)
     (<[Sample.output </> "group1-shard1of1.bin" := Raw]> Sample.array_descriptor)
     Sample.output
   == BatchConverter.calculate_model_size (λ _, 1048576%Z)
        Sample.array_descriptor Sample.output
      + (if strictly_below Sample.output
              (Sample.output </> "group1-shard1of1.bin")
         then inject_Z 1048576 / MB else 0))%Q.
Proof.
  apply (size_counts_files_below (λ _, 1048576%Z) Sample.array_descriptor
           Sample.output (Sample.output </> "group1-shard1of1.bin") Raw).
  reflexivity.
Defined.



Lemma convert_stays_in_footprint_witness :
  fs (ModelConverter.convert (Sample.ext_ok Sample.trained_blob)
        Sample.pt_input Sample.pt_output false (init Sample.models)).2
    !! Sample.input
  = Sample.models !! Sample.input.
Proof.
  apply (convert_stays_in_footprint (Sample.ext_ok Sample.trained_blob)
           Sample.pt_input Sample.pt_output false Sample.models Sample.input).
  - intros H.
    repeat (apply elem_of_cons in H as [H | H]; [vm_compute in H; discriminate |]).
    inversion H.
  - intros i n H. inversion H.
Defined.

Lemma convert_all_stays_in_footprints_witness :
  (BatchConverter.convert_all (Sample.ext_ok Sample.trained_blob) false
     (λ _, 1048576%Z) (λ _, 0.25%Q) "2025-01-01 00:00:00" ["models"]
     Sample.models).2 !! Sample.input
  = Sample.models !! Sample.input.
Proof.
  apply (convert_all_stays_in_footprints (Sample.ext_ok Sample.trained_blob)
           false (λ _, 1048576%Z) (λ _, 0.25%Q) "2025-01-01 00:00:00"
           ["models"] Sample.models Sample.input).
  - discriminate.
  - intros m Hm. vm_compute in Hm.
    apply list_elem_of_singleton in Hm. subst m. split.
    + intros H.
      repeat (apply elem_of_cons in H as [H | H];
              [vm_compute in H; discriminate |]).
      inversion H.
    + intros i n H. inversion H.
Defined.
